(** * SecureMyAI prompt firewall: classifier, redactor, policy, audit log

    A shallow embedding of
      - [backend/app/firewall/filters.py]   (class [PromptFilter]),
      - [backend/app/firewall/redactor.py]  (class [PromptRedactor]),
      - [backend/app/firewall/classifier.py],
      - [backend/app/main.py]               ([check_prompt]),
      - [backend/main_app.py]               (the prompt analysis page),
      - [backend/app/logging/logger.py]     (class [PromptLogger]),
    together with the part of Python's [re] module these files call.

    Python [str] values are modelled by [string]; a character stands for
    one code point below 256.  Dictionaries are association lists in
    insertion order, because the code iterates over them and joins their
    keys. *)

From Stdlib Require Import String Ascii List Bool Arith NArith Lia.
From Stdlib Require Import ZArith DecimalString.
Import ListNotations.
Local Open Scope string_scope.

(* ------------------------------------------------------------------ *)
(** ** Characters *)

Module Chr.

Definition code (c : ascii) : N := N_of_ascii c.

Definition between (lo hi n : N) : bool := (N.leb lo n) && (N.leb n hi).

(** [str.lower] on one code point: A-Z and the upper-case letters of the
    second half of the table (À..Þ without the multiplication sign). *)
Definition lower (c : ascii) : ascii :=
  let n := code c in
  if between 65 90 n || (between 192 222 n && negb (N.eqb n 215))
  then ascii_of_N (n + 32) else c.

(** [str.upper], which the program applies to detector names only
    (ASCII letters, digits and the underscore). *)
Definition upper (c : ascii) : ascii :=
  let n := code c in
  if between 97 122 n then ascii_of_N (n - 32) else c.

(** [\d] *)
Definition is_digit (c : ascii) : bool := between 48 57 (code c).

(** [\s]: [str.isspace] *)
Definition is_space (c : ascii) : bool :=
  let n := code c in
  between 9 13 n || between 28 32 n || N.eqb n 133 || N.eqb n 160.

(** [\w]: [str.isalnum] or the underscore *)
Definition is_word (c : ascii) : bool :=
  let n := code c in
  between 48 57 n || between 65 90 n || between 97 122 n || N.eqb n 95
  || N.eqb n 170 || between 178 179 n || N.eqb n 181 || between 185 186 n
  || between 188 190 n || between 192 214 n || between 216 246 n
  || between 248 255 n.

End Chr.

(* ------------------------------------------------------------------ *)
(** ** Strings *)

Module Str.

Fixpoint map (f : ascii -> ascii) (s : string) : string :=
  match s with
  | EmptyString => EmptyString
  | String c t => String (f c) (map f t)
  end.

(** [s.lower()] and [s.upper()] *)
Definition lower : string -> string := map Chr.lower.
Definition upper : string -> string := map Chr.upper.

(** [hay.startswith(needle)] *)
Fixpoint starts (needle hay : string) : bool :=
  match needle, hay with
  | EmptyString, _ => true
  | String a n, String b h => Ascii.eqb a b && starts n h
  | String _ _, EmptyString => false
  end.

(** [needle in hay] *)
Fixpoint contains (needle hay : string) : bool :=
  starts needle hay ||
  match hay with
  | EmptyString => false
  | String _ h => contains needle h
  end.

(** [sep.join(parts)] *)
Fixpoint join (sep : string) (parts : list string) : string :=
  match parts with
  | [] => ""
  | [p] => p
  | p :: rest => p ++ sep ++ join sep rest
  end.

(** [s[:n]] *)
Fixpoint take (n : nat) (s : string) : string :=
  match n, s with
  | S k, String c t => String c (take k t)
  | _, _ => ""
  end.

End Str.

(* ------------------------------------------------------------------ *)
(** ** The regular expressions of Python's [re] *)

Module Re.

(** Members of a bracketed class. *)
Inductive citem : Type :=
| CChar (c : ascii)
| CRange (lo hi : ascii)
| CDigit (positive : bool)
| CSpace (positive : bool)
| CWord (positive : bool).

Inductive regex : Type :=
| Eps
| Lit (c : ascii)
| Any
| Cls (negated : bool) (items : list citem)
| WordB
| Cat (a b : regex)
| Alt (a b : regex)
| Grp (n : nat) (a : regex)
| Rep (a : regex) (lo : nat) (hi : option nat).

(** *** Parsing pattern text

    The fragment of the pattern syntax that the program's patterns are
    written in: literals, backslash escapes, classes, groups (capturing and
    [(?:...)]), alternation and the greedy quantifiers.  [None] stands for
    a pattern outside this fragment. *)

Definition is_special (c : ascii) : bool :=
  existsb (Ascii.eqb c) (list_ascii_of_string ".^$*+?{}[]\|()").

Definition is_alnum (c : ascii) : bool :=
  let n := Chr.code c in
  Chr.between 48 57 n || Chr.between 65 90 n || Chr.between 97 122 n.

Definition digit_val (c : ascii) : nat := N.to_nat (Chr.code c - 48).

Fixpoint p_number (acc : nat) (s : string) : nat * string :=
  match s with
  | String c t => if Chr.is_digit c then p_number (10 * acc + digit_val c) t
                  else (acc, s)
  | EmptyString => (acc, s)
  end.

(** A backslash escape, outside or inside a class. *)
Definition p_escape (c : ascii) : option citem :=
  if Ascii.eqb c "d" then Some (CDigit true)
  else if Ascii.eqb c "D" then Some (CDigit false)
  else if Ascii.eqb c "s" then Some (CSpace true)
  else if Ascii.eqb c "S" then Some (CSpace false)
  else if Ascii.eqb c "w" then Some (CWord true)
  else if Ascii.eqb c "W" then Some (CWord false)
  else if is_alnum c then None
  else Some (CChar c).

(** One member of a class, without a following range. *)
Definition p_cmember (s : string) : option (citem * string) :=
  match s with
  | String "\" (String c t) =>
      match p_escape c with Some i => Some (i, t) | None => None end
  | String c t => Some (CChar c, t)
  | EmptyString => None
  end.

Fixpoint p_class (fuel : nat) (first : bool) (s : string)
  : option (list citem * string) :=
  match fuel with
  | 0 => None
  | S f =>
      match s with
      | EmptyString => None
      | String c t =>
          if Ascii.eqb c "]" && negb first then Some ([], t)
          else
            match p_cmember s with
            | None => None
            | Some (i, s1) =>
                match i, s1 with
                | CChar lo, String "-" (String d t2) =>
                    if Ascii.eqb d "]" then
                      match p_class f false s1 with
                      | Some (l, r) => Some (i :: l, r)
                      | None => None
                      end
                    else
                      match p_cmember (String d t2) with
                      | Some (CChar hi, s2) =>
                          if N.leb (Chr.code lo) (Chr.code hi) then
                            match p_class f false s2 with
                            | Some (l, r) => Some (CRange lo hi :: l, r)
                            | None => None
                            end
                          else None
                      | _ => None
                      end
                | _, _ =>
                    match p_class f false s1 with
                    | Some (l, r) => Some (i :: l, r)
                    | None => None
                    end
                end
            end
      end
  end.

(** The quantifier after an atom, if any.  Lazy and possessive forms are
    outside the fragment. *)
Definition no_suffix (s : string) : bool :=
  match s with
  | String c _ => negb (Ascii.eqb c "?" || Ascii.eqb c "+")
  | EmptyString => true
  end.

Definition p_quant (a : regex) (s : string) : option (regex * string) :=
  match s with
  | String "?" t => if no_suffix t then Some (Rep a 0 (Some 1), t) else None
  | String "*" t => if no_suffix t then Some (Rep a 0 None, t) else None
  | String "+" t => if no_suffix t then Some (Rep a 1 None, t) else None
  | String "{" t =>
      let '(lo, t1) := p_number 0 t in
      match t1 with
      | String "}" t2 =>
          if no_suffix t2 then Some (Rep a lo (Some lo), t2) else None
      | String "," t2 =>
          match t2 with
          | String "}" t3 =>
              if no_suffix t3 then Some (Rep a lo None, t3) else None
          | _ =>
              let '(hi, t3) := p_number 0 t2 in
              match t3 with
              | String "}" t4 =>
                  if no_suffix t4 && Nat.leb lo hi
                  then Some (Rep a lo (Some hi), t4) else None
              | _ => None
              end
          end
      | _ => None
      end
  | _ => Some (a, s)
  end.

(** Alternation, sequence and atom; [g] counts the capturing groups opened
    so far, so that groups are numbered by their opening parenthesis. *)
Fixpoint p_alt (fuel g : nat) (s : string) : option (regex * nat * string) :=
  match fuel with
  | 0 => None
  | S f =>
      match p_seq f g s with
      | Some (a, g1, String "|" s1) =>
          match p_alt f g1 s1 with
          | Some (b, g2, s2) => Some (Alt a b, g2, s2)
          | None => None
          end
      | other => other
      end
  end
with p_seq (fuel g : nat) (s : string) : option (regex * nat * string) :=
  match fuel with
  | 0 => None
  | S f =>
      match s with
      | EmptyString => Some (Eps, g, s)
      | String c _ =>
          if Ascii.eqb c "|" || Ascii.eqb c ")" then Some (Eps, g, s)
          else
            match p_atom f g s with
            | Some (a, g1, s1) =>
                match p_quant a s1 with
                | Some (q, s2) =>
                    match p_seq f g1 s2 with
                    | Some (Eps, g2, s3) => Some (q, g2, s3)
                    | Some (r, g2, s3) => Some (Cat q r, g2, s3)
                    | None => None
                    end
                | None => None
                end
            | None => None
            end
      end
  end
with p_atom (fuel g : nat) (s : string) : option (regex * nat * string) :=
  match fuel with
  | 0 => None
  | S f =>
      match s with
      | EmptyString => None
      | String "(" (String "?" t) =>
          match t with
          | String ":" t1 =>
              match p_alt f g t1 with
              | Some (a, g1, String ")" t2) => Some (a, g1, t2)
              | _ => None
              end
          | _ => None
          end
      | String "(" t =>
          match p_alt f (S g) t with
          | Some (a, g1, String ")" t2) => Some (Grp (S g) a, g1, t2)
          | _ => None
          end
      | String "[" (String "^" t) =>
          match p_class (S (String.length t)) true t with
          | Some (l, r) => Some (Cls true l, g, r)
          | None => None
          end
      | String "[" t =>
          match p_class (S (String.length t)) true t with
          | Some (l, r) => Some (Cls false l, g, r)
          | None => None
          end
      | String "\" (String c t) =>
          if Ascii.eqb c "b" then Some (WordB, g, t)
          else
            match p_escape c with
            | Some (CChar x) => Some (Lit x, g, t)
            | Some i => Some (Cls false [i], g, t)
            | None => None
            end
      | String "." t => Some (Any, g, t)
      | String c t => if is_special c then None else Some (Lit c, g, t)
      end
  end.

(** A compiled pattern: the expression and its number of groups. *)
Record pattern : Type := { p_re : regex; p_groups : nat }.

Definition parse (src : string) : option pattern :=
  match p_alt (3 * String.length src + 3) 0 src with
  | Some (r, g, EmptyString) => Some {| p_re := r; p_groups := g |}
  | _ => None
  end.

(** *** Matching

    A backtracking matcher in continuation-passing style: alternatives are
    tried left to right, repetitions are greedy, and the first way to reach
    the end of the pattern is the match, as in [re]. *)

(** The matcher's position: the character before it (for [\b]), the text
    still ahead, and the groups captured so far. *)
Record mstate : Type :=
  { m_prev : option ascii; m_rest : string; m_caps : list (nat * string) }.

Definition word_at (c : option ascii) : bool :=
  match c with Some x => Chr.is_word x | None => false end.

Definition next_char (s : string) : option ascii :=
  match s with String c _ => Some c | EmptyString => None end.

(** [\b] holds where exactly one neighbour is a word character. *)
Definition at_boundary (st : mstate) : bool :=
  xorb (word_at (m_prev st)) (word_at (next_char (m_rest st))).

(** A pattern character against a text character; [ic] is
    [re.IGNORECASE]. *)
Definition lit_match (ic : bool) (c x : ascii) : bool :=
  if ic then Ascii.eqb (Chr.lower c) (Chr.lower x) else Ascii.eqb c x.

Definition in_range (lo hi x : ascii) : bool :=
  Chr.between (Chr.code lo) (Chr.code hi) (Chr.code x).

(** Under [re.IGNORECASE] a range also holds the other case of its
    letters. *)
Definition range_match (ic : bool) (lo hi x : ascii) : bool :=
  in_range lo hi x ||
  (ic && (in_range lo hi (Chr.lower x) || in_range lo hi (Chr.upper x))).

Definition citem_match (ic : bool) (i : citem) (x : ascii) : bool :=
  match i with
  | CChar c => lit_match ic c x
  | CRange lo hi => range_match ic lo hi x
  | CDigit pos => Bool.eqb pos (Chr.is_digit x)
  | CSpace pos => Bool.eqb pos (Chr.is_space x)
  | CWord pos => Bool.eqb pos (Chr.is_word x)
  end.

Definition cls_match (ic negated : bool) (items : list citem) (x : ascii)
  : bool :=
  xorb negated (existsb (fun i => citem_match ic i x) items).

Definition advance (c : ascii) (t : string) (st : mstate) : mstate :=
  {| m_prev := Some c; m_rest := t; m_caps := m_caps st |}.

Definition one_char (p : ascii -> bool) (k : mstate -> option mstate)
  (st : mstate) : option mstate :=
  match m_rest st with
  | String x t => if p x then k (advance x t st) else None
  | EmptyString => None
  end.

(** The text between two positions of the same run. *)
Definition consumed (st st' : mstate) : string :=
  Str.take (String.length (m_rest st) - String.length (m_rest st')) (m_rest st).

Definition set_cap (n : nat) (v : string) (st : mstate) : mstate :=
  {| m_prev := m_prev st; m_rest := m_rest st;
     m_caps :=
       (n, v) :: filter (fun p => negb (Nat.eqb (fst p) n)) (m_caps st) |}.

Definition below (hi : option nat) (cnt : nat) : bool :=
  match hi with Some h => Nat.ltb cnt h | None => true end.

(** [exec ic r k st] matches [r] at [st] and hands the position reached to
    [k]; [None] is a failed attempt, after which the caller backtracks.  A
    repetition takes one more round first and gives up rounds only when
    what follows fails; a round that consumes nothing is not taken. *)
Fixpoint exec (ic : bool) (r : regex) (k : mstate -> option mstate)
  (st : mstate) {struct r} : option mstate :=
  match r with
  | Eps => k st
  | Lit c => one_char (lit_match ic c) k st
  | Any => one_char (fun x => negb (Ascii.eqb x "010")) k st
  | Cls negated items => one_char (cls_match ic negated items) k st
  | WordB => if at_boundary st then k st else None
  | Cat a b => exec ic a (exec ic b k) st
  | Alt a b =>
      match exec ic a k st with
      | Some res => Some res
      | None => exec ic b k st
      end
  | Grp n a => exec ic a (fun st' => k (set_cap n (consumed st st') st')) st
  | Rep a lo hi =>
      (fix loop (fuel cnt : nat) (st : mstate) {struct fuel} : option mstate :=
         let stop := if Nat.leb lo cnt then k st else None in
         match fuel with
         | 0 => stop
         | S f =>
             if below hi cnt then
               match
                 exec ic a
                   (fun st' =>
                      if Nat.ltb (String.length (m_rest st'))
                                 (String.length (m_rest st))
                      then loop f (S cnt) st' else None) st
               with
               | Some res => Some res
               | None => stop
               end
             else stop
         end) (S (String.length (m_rest st))) 0 st
  end.

(** One match object: [group(0)] and the numbered groups ([None] for a
    group that took no part). *)
Record rmatch : Type := { whole : string; groups : list (option string) }.

Fixpoint cap_lookup (n : nat) (caps : list (nat * string)) : option string :=
  match caps with
  | [] => None
  | (m, v) :: rest => if Nat.eqb m n then Some v else cap_lookup n rest
  end.

(** [m.group(n)]; a group that took no part gives [None]. *)
Definition group (m : rmatch) (n : nat) : option string :=
  match n with
  | 0 => Some (whole m)
  | S i => nth i (groups m) None
  end.

(** [pattern.match(text, pos)], with the character before [pos]. *)
Definition match_at (ic : bool) (p : pattern) (prev : option ascii)
  (rest : string) : option rmatch :=
  let st := {| m_prev := prev; m_rest := rest; m_caps := [] |} in
  match exec ic (p_re p) (fun s => Some s) st with
  | Some st' =>
      Some {| whole := consumed st st';
              groups := List.map (fun n => cap_lookup n (m_caps st'))
                                 (seq 1 (p_groups p)) |}
  | None => None
  end.

(** The text cut into the characters outside any match and the matches,
    left to right, as [finditer] walks it: after a match the scan resumes
    behind it.  [skip] counts the characters of the last match still to be
    passed over.  After an empty match the scan moves on by one character;
    every pattern of the program takes at least one. *)
Inductive piece : Type :=
| Out (c : ascii)
| Mat (m : rmatch).

Fixpoint scan (ic : bool) (p : pattern) (skip : nat) (prev : option ascii)
  (rest : string) {struct rest} : list piece :=
  match skip with
  | S n =>
      match rest with
      | EmptyString => []
      | String c t => scan ic p n (Some c) t
      end
  | 0 =>
      match match_at ic p prev rest with
      | Some m =>
          Mat m ::
          match rest with
          | EmptyString => []
          | String c t =>
              match String.length (whole m) with
              | 0 => Out c :: scan ic p 0 (Some c) t
              | S n => scan ic p n (Some c) t
              end
          end
      | None =>
          match rest with
          | EmptyString => []
          | String c t => Out c :: scan ic p 0 (Some c) t
          end
      end
  end.

Fixpoint matches (ps : list piece) : list rmatch :=
  match ps with
  | [] => []
  | Out _ :: rest => matches rest
  | Mat m :: rest => m :: matches rest
  end.

(** [pattern.finditer(text)] *)
Definition finditer (ic : bool) (p : pattern) (text : string) : list rmatch :=
  matches (scan ic p 0 None text).

(** What [findall] lists for one match: the whole match for a pattern
    without groups, the group for a pattern with one, the tuple of groups
    otherwise; a group that took no part shows as the empty string. *)
Inductive found : Type :=
| FStr (s : string)
| FTuple (l : list string).

Definition or_empty (o : option string) : string :=
  match o with Some s => s | None => "" end.

Definition found_of (ngroups : nat) (m : rmatch) : found :=
  match ngroups with
  | 0 => FStr (whole m)
  | 1 => FStr (or_empty (group m 1))
  | _ => FTuple (List.map or_empty (groups m))
  end.

Fixpoint rebuild (repl : rmatch -> string) (ps : list piece) : string :=
  match ps with
  | [] => ""
  | Out c :: rest => String c (rebuild repl rest)
  | Mat m :: rest => repl m ++ rebuild repl rest
  end.

(** [re.compile(src, flags)]: the program's patterns are constants inside
    the fragment (see [patterns_compile] below), so the pattern that never
    matches, for text outside it, is never used. *)
Definition never : pattern := {| p_re := Cls false []; p_groups := 0 |}.

Definition compile (src : string) : pattern :=
  match parse src with Some p => p | None => never end.

(** [re.findall(src, text, re.IGNORECASE)] when [ic] is set. *)
Definition findall (ic : bool) (src text : string) : list found :=
  let p := compile src in
  List.map (found_of (p_groups p)) (finditer ic p text).

(** [pattern.sub(repl, text)] with a function [repl]. *)
Definition sub_with (ic : bool) (p : pattern) (repl : rmatch -> string)
  (text : string) : string :=
  rebuild repl (scan ic p 0 None text).

(** [re.sub(src, repl, text, flags)] with a replacement text free
    of backslashes. *)
Definition sub (ic : bool) (src repl text : string) : string :=
  sub_with ic (compile src) (fun _ => repl) text.

(** [re.escape]: a backslash before each character with a meaning in
    patterns. *)
Definition needs_escape (c : ascii) : bool :=
  existsb (Ascii.eqb c) (list_ascii_of_string "()[]{}?*+-|^$\.&~# ")
  || Chr.between 9 13 (Chr.code c).

Fixpoint escape (s : string) : string :=
  match s with
  | EmptyString => ""
  | String c t =>
      if needs_escape c then String "\" (String c (escape t))
      else String c (escape t)
  end.

End Re.

(* ------------------------------------------------------------------ *)
(** ** Dictionaries with string keys, in insertion order *)

Module Dict.

Section Ops.
Context {V : Type}.

(** [d[k] = v] *)
Fixpoint set (d : list (string * V)) (k : string) (v : V)
  : list (string * V) :=
  match d with
  | [] => [(k, v)]
  | (k', v') :: rest =>
      if String.eqb k' k then (k, v) :: rest else (k', v') :: set rest k v
  end.

(** [k in d] *)
Definition has (d : list (string * V)) (k : string) : bool :=
  existsb (fun p => String.eqb (fst p) k) d.

(** [list(d.keys())] and [d.values()] *)
Definition keys (d : list (string * V)) : list string := List.map fst d.
Definition values (d : list (string * V)) : list V := List.map snd d.

End Ops.

End Dict.

(** The truth value of a list: [if xs:]. *)
Definition truthy {A : Type} (xs : list A) : bool :=
  match xs with [] => false | _ => true end.

(* ------------------------------------------------------------------ *)
(** ** [filters.py]: class [PromptFilter] *)

Module PromptFilter.

Definition patterns : list (string * string) :=
  [ ("email", "\b[A-Za-z0-9._%+-]+@[A-Za-z0-9.-]+\.[A-Z|a-z]{2,}\b");
    ("phone", "\b(\+\d{1,3}[-.\s]?)?\(?\d{3}\)?[-.\s]?\d{3}[-.\s]?\d{4}\b");
    ("ssn", "\b\d{3}-\d{2}-\d{4}\b");
    ("credit_card", "\b\d{4}[-.\s]?\d{4}[-.\s]?\d{4}[-.\s]?\d{4}\b");
    ("ip_address", "\b\d{1,3}\.\d{1,3}\.\d{1,3}\.\d{1,3}\b");
    ("date_of_birth",
     "\b(0?[1-9]|1[0-2])[/-](0?[1-9]|[12]\d|3[01])[/-]\d{4}\b");
    ("address",
     "\b\d+\s+[A-Za-z\s]+(?:Street|St|Avenue|Ave|Road|Rd|Boulevard|Blvd|Lane|Ln|Drive|Dr)\b")
  ].

Definition high_risk_keywords : list string :=
  [ "password"; "secret"; "api_key"; "token"; "private_key"; "ssh_key";
    "database_password"; "admin_password"; "root_password"; "master_key";
    "encryption_key"; "decryption_key"; "access_token"; "refresh_token";
    "social_security"; "ssn"; "credit_card"; "cvv"; "pin"; "passport";
    "driver_license"; "bank_account"; "routing_number"; "swift_code" ].

Definition medium_risk_keywords : list string :=
  [ "personal"; "private"; "confidential"; "sensitive"; "internal";
    "proprietary"; "classified"; "restricted"; "secure"; "protected" ].

(** One round of the loop of [detect_pii]. *)
Definition detect_step (text : string)
  (detected : list (string * list Re.found)) (entry : string * string)
  : list (string * list Re.found) :=
  let '(pattern_name, pattern) := entry in
  let matches := Re.findall true pattern text in
  if truthy matches then Dict.set detected pattern_name matches
  else detected.

Definition detect_pii (text : string) : list (string * list Re.found) :=
  fold_left (detect_step text) patterns [].

Record keywords : Type := { kw_high : list string; kw_medium : list string }.

Definition check_keywords (text : string) : keywords :=
  let text_lower := Str.lower text in
  {| kw_high :=
       filter (fun keyword => Str.contains keyword text_lower)
              high_risk_keywords;
     kw_medium :=
       filter (fun keyword => Str.contains keyword text_lower)
              medium_risk_keywords |}.

Inductive risk : Type := Low | Medium | High.

Definition risk_name (r : risk) : string :=
  match r with Low => "low" | Medium => "medium" | High => "high" end.

Definition is_high (r : risk) : bool :=
  match r with High => true | _ => false end.

Record analysis : Type :=
  { risk_level : risk;
    pii_detected : list (string * list Re.found);
    keywords_found : keywords;
    should_block : bool;
    total_pii_count : nat;
    high_risk_keywords_count : nat;
    medium_risk_keywords_count : nat }.

Definition analyze_prompt (prompt : string) : analysis :=
  let pii_detected := detect_pii prompt in
  let keywords_found := check_keywords prompt in
  let risk_level :=
    if existsb (fun pii => Dict.has pii_detected pii) ["ssn"; "credit_card"]
    then High
    else if truthy pii_detected || truthy (kw_high keywords_found)
            || truthy (kw_medium keywords_found)
    then Medium
    else Low in
  {| risk_level := risk_level;
     pii_detected := pii_detected;
     keywords_found := keywords_found;
     should_block := is_high risk_level;
     total_pii_count :=
       list_sum (List.map (@List.length Re.found) (Dict.values pii_detected));
     high_risk_keywords_count := List.length (kw_high keywords_found);
     medium_risk_keywords_count := List.length (kw_medium keywords_found) |}.

Definition should_block_prompt (prompt : string) : bool * string :=
  let analysis := analyze_prompt prompt in
  if should_block analysis then
    let reasons : list string := [] in
    let reasons :=
      if truthy (pii_detected analysis) then
        let pii_types := Dict.keys (pii_detected analysis) in
        List.app reasons ["Detected PII: " ++ Str.join ", " pii_types]
      else reasons in
    let reasons :=
      if truthy (kw_high (keywords_found analysis)) then
        List.app reasons
                 ["High-risk keywords: "
                    ++ Str.join ", " (kw_high (keywords_found analysis))]
      else reasons in
    (true, Str.join "; " reasons)
  else (false, "No high-risk content detected").

End PromptFilter.

(* ------------------------------------------------------------------ *)
(** ** [classifier.py] *)

Module Classifier.

Definition classify_risk (prompt : string) : string :=
  PromptFilter.risk_name
    (PromptFilter.risk_level (PromptFilter.analyze_prompt prompt)).

Definition should_block_prompt (prompt : string) : bool * string :=
  PromptFilter.should_block_prompt prompt.

Definition get_detailed_analysis (prompt : string) : PromptFilter.analysis :=
  PromptFilter.analyze_prompt prompt.

End Classifier.

(* ------------------------------------------------------------------ *)
(** ** [redactor.py]: class [PromptRedactor] *)

Module PromptRedactor.

Definition redaction_patterns : list (string * string) :=
  [ ("email", "\b[A-Za-z0-9._%+-]+@[A-Za-z0-9.-]+\.[A-Z|a-z]{2,}\b");
    ("phone", "\b(\+\d{1,3}[-.\s]?)?\(?\d{3}\)?[-.\s]?\d{3}[-.\s]?\d{4}\b");
    ("ssn", "\b\d{3}-\d{2}-\d{4}\b");
    ("credit_card", "\b\d{4}[-.\s]?\d{4}[-.\s]?\d{4}[-.\s]?\d{4}\b");
    ("ip_address", "\b\d{1,3}\.\d{1,3}\.\d{1,3}\.\d{1,3}\b");
    ("date_of_birth",
     "\b(0?[1-9]|1[0-2])[/-](0?[1-9]|[12]\d|3[01])[/-]\d{4}\b");
    ("address",
     "\b\d+\s+[A-Za-z\s]+(?:Street|St|Avenue|Ave|Road|Rd|Boulevard|Blvd|Lane|Ln|Drive|Dr)\b")
  ].

Definition redact_keywords_list : list string :=
  [ "password"; "secret"; "api_key"; "token"; "private_key"; "ssh_key";
    "database_password"; "admin_password"; "root_password"; "master_key";
    "encryption_key"; "decryption_key"; "access_token"; "refresh_token";
    "social_security"; "ssn"; "credit_card"; "cvv"; "pin"; "passport";
    "driver_license"; "bank_account"; "routing_number"; "swift_code" ].

(** The placeholder [f'[REDACTED_{pattern_name.upper()}]']. *)
Definition placeholder (pattern_name : string) : string :=
  "[REDACTED_" ++ Str.upper pattern_name ++ "]".

Definition keyword_marker : string := "[REDACTED_KEYWORD]".
Definition secret_marker : string := "[REDACTED_SECRET]".

(** One round of the loop of [redact_pii]: the matches are looked for in
    the text as it came in, the replacement is made in the text as
    redacted so far. *)
Definition pii_step (text : string)
  (acc : string * list (string * list Re.found)) (entry : string * string)
  : string * list (string * list Re.found) :=
  let '(redacted_text, redaction_mapping) := acc in
  let '(pattern_name, pattern) := entry in
  let found_matches := Re.findall true pattern text in
  if truthy found_matches then
    (Re.sub true pattern (placeholder pattern_name) redacted_text,
     Dict.set redaction_mapping pattern_name found_matches)
  else acc.

Definition redact_pii (text : string)
  : string * list (string * list Re.found) :=
  fold_left (pii_step text) redaction_patterns (text, []).

(** The dictionary [{'redacted_keywords': [...]}]. *)
Record keyword_mapping : Type := { redacted_keywords : list string }.

Definition already_redacted (redacted_text : string) : bool :=
  Str.contains keyword_marker redacted_text
  || Str.contains secret_marker redacted_text.

(** One round of the loop of [redact_keywords]. *)
Definition keyword_step (text_lower : string)
  (acc : string * list string) (keyword : string) : string * list string :=
  let '(redacted_text, found) := acc in
  if already_redacted redacted_text then acc
  else if Str.contains keyword text_lower then
    (Re.sub_with true (Re.compile (Re.escape keyword))
                 (fun _ => keyword_marker) redacted_text,
     List.app found [keyword])
  else acc.

Definition redact_keywords (text : string) : string * keyword_mapping :=
  let text_lower := Str.lower text in
  let '(redacted_text, found) :=
    fold_left (keyword_step text_lower) redact_keywords_list (text, []) in
  (redacted_text, {| redacted_keywords := found |}).

Definition assignment_pattern : Re.pattern :=
  let keywords := Str.join "|" (List.map Re.escape redact_keywords_list) in
  Re.compile ("\b(" ++ keywords ++ ")\b\s*(=|:|is)?\s*([\S]+)").

Definition replacer (m : Re.rmatch) : string :=
  let sep := Re.or_empty (Re.group m 2) in
  keyword_marker ++ " " ++ sep ++ " " ++ secret_marker.

Definition redact_secret_assignments (text : string) : string :=
  Re.sub_with true assignment_pattern replacer text.

Record redaction : Type :=
  { original_prompt : string;
    redacted_prompt : string;
    pii_redactions : list (string * list Re.found);
    keyword_redactions : keyword_mapping;
    total_redactions : nat;
    was_redacted : bool }.

Definition redact_prompt (prompt : string) : redaction :=
  let '(redacted_text, pii_mapping) := redact_pii prompt in
  let redacted_text := redact_secret_assignments redacted_text in
  let '(final_redacted_text, keyword_mapping) :=
    redact_keywords redacted_text in
  let total_redactions :=
    list_sum (List.map (@List.length Re.found) (Dict.values pii_mapping)) in
  let total_redactions :=
    total_redactions + List.length (redacted_keywords keyword_mapping) in
  {| original_prompt := prompt;
     redacted_prompt := final_redacted_text;
     pii_redactions := pii_mapping;
     keyword_redactions := keyword_mapping;
     total_redactions := total_redactions;
     was_redacted := Nat.ltb 0 total_redactions |}.

End PromptRedactor.

(* ------------------------------------------------------------------ *)
(** ** The calls to the model providers

    [call_groq] and [call_gemini] post the text they are given to a
    provider and return its answer or an error text.  A handler's run is
    its result together with the calls it made, in order. *)

Module Llm.

Inductive provider : Type := Groq | Gemini.

Record call : Type := { to : provider; sent_text : string }.

Definition io (A : Type) : Type := list call * A.

Definition ret {A : Type} (a : A) : io A := ([], a).

Definition bind {A B : Type} (m : io A) (f : A -> io B) : io B :=
  let '(c1, a) := m in
  let '(c2, b) := f a in
  (List.app c1 c2, b).

Definition calls {A : Type} (m : io A) : list call := fst m.
Definition result {A : Type} (m : io A) : A := snd m.

Section Providers.
Variables call_groq call_gemini : string -> string.

Definition send (p : provider) (text : string) : io string :=
  ([{| to := p; sent_text := text |}],
   match p with Groq => call_groq text | Gemini => call_gemini text end).

End Providers.

End Llm.

(* ------------------------------------------------------------------ *)
(** ** [app/main.py]: the [/prompt] endpoint *)

Module Api.

Record PromptRequest : Type := { prompt : string; llm : string }.

Record PromptResponse : Type := { risk : string; llm_response : string }.

Inductive reply : Type :=
| Response (r : PromptResponse)
| HTTPException (status_code : nat) (detail : string).

Section Providers.
Variables call_groq call_gemini : string -> string.

Definition check_prompt (request : PromptRequest) : Llm.io reply :=
  let risk := Classifier.classify_risk (prompt request) in
  if String.eqb (llm request) "groq" then
    Llm.bind (Llm.send call_groq call_gemini Llm.Groq (prompt request))
      (fun llm_response =>
         Llm.ret (Response {| risk := risk; llm_response := llm_response |}))
  else if String.eqb (llm request) "gemini" then
    Llm.bind (Llm.send call_groq call_gemini Llm.Gemini (prompt request))
      (fun llm_response =>
         Llm.ret (Response {| risk := risk; llm_response := llm_response |}))
  else Llm.ret (HTTPException 400 "Invalid LLM choice.").

End Providers.

End Api.

(* ------------------------------------------------------------------ *)
(** ** [main_app.py]: the prompt analysis page, steps 1 to 4 of a
    submitted form *)

Module Page.

Definition nl : string := String "010" "".

(** The text shown in place of a model's answer for a blocked prompt. *)
Definition blocked_message (block_reason : string) : string :=
  "🚫 **PROMPT BLOCKED**" ++ nl ++ nl ++ "**Reason:** " ++ block_reason
  ++ nl ++ nl
  ++ "This prompt contains sensitive information and has been blocked "
  ++ "for security reasons.".

Record outcome : Type :=
  { detailed_analysis : PromptFilter.analysis;
    should_block : bool;
    block_reason : string;
    llm_response : string;
    model_used : string;
    redaction_result : option PromptRedactor.redaction }.

Section Providers.
Variables call_groq call_gemini : string -> string.

Definition analyze_submitted (prompt llm_option : string)
  : Llm.io outcome :=
  let llm_choice :=
    if Str.contains "Groq" llm_option then "groq" else "gemini" in
  let detailed_analysis := Classifier.get_detailed_analysis prompt in
  let '(should_block, block_reason) :=
    Classifier.should_block_prompt prompt in
  if should_block then
    Llm.ret {| detailed_analysis := detailed_analysis;
               should_block := should_block;
               block_reason := block_reason;
               llm_response := blocked_message block_reason;
               model_used := llm_choice;
               redaction_result := None |}
  else
    let '(redaction_result, prompt_to_send) :=
      match PromptFilter.risk_level detailed_analysis with
      | PromptFilter.Medium =>
          let redaction_result := PromptRedactor.redact_prompt prompt in
          (Some redaction_result,
           PromptRedactor.redacted_prompt redaction_result)
      | _ => (None, prompt)
      end in
    Llm.bind
      (if String.eqb llm_choice "groq"
       then Llm.send call_groq call_gemini Llm.Groq prompt_to_send
       else Llm.send call_groq call_gemini Llm.Gemini prompt_to_send)
      (fun llm_response =>
         Llm.ret {| detailed_analysis := detailed_analysis;
                    should_block := should_block;
                    block_reason := block_reason;
                    llm_response := llm_response;
                    model_used := llm_choice;
                    redaction_result := redaction_result |}).

(** The form as submitted: an empty prompt is turned away before any
    analysis. *)
Definition submit (prompt llm_option : string)
  : Llm.io (string + outcome) :=
  if String.eqb prompt "" then Llm.ret (inl "Please enter a prompt.")
  else
    Llm.bind (analyze_submitted prompt llm_option)
             (fun o => Llm.ret (inr o)).

End Providers.

End Page.

(* ------------------------------------------------------------------ *)
(** ** [logger.py]: class [PromptLogger]

    The two log files and what can go wrong with them are the state; a
    call returns the new state and either a value or the exception that
    escapes it. *)

Module PromptLogger.

Inductive exn : Type :=
| OSError (msg : string)
| AttributeError (msg : string).

(** [str(e)] *)
Definition exn_text (e : exn) : string :=
  match e with OSError m => m | AttributeError m => m end.

Inductive result (A : Type) : Type :=
| Ok (a : A)
| Raised (e : exn).
Arguments Ok {A} a.
Arguments Raised {A} e.

Record log_entry : Type :=
  { timestamp : string;
    prompt : string;
    risk_level : string;
    should_block : bool;
    block_reason : string;
    model_used : string;
    was_redacted : bool;
    redacted_prompt : string;
    pii_detected : list string;
    high_risk_keywords : list string;
    medium_risk_keywords : list string;
    total_pii_count : nat;
    high_risk_keywords_count : nat;
    medium_risk_keywords_count : nat;
    llm_response_length : nat;
    processing_time_ms : nat;
    detailed_analysis : PromptFilter.analysis;
    redaction_details : option PromptRedactor.redaction;
    llm_response : string }.

Inductive cell : Type :=
| CStr (s : string)
| CBool (b : bool)
| CInt (n : nat).

(** What [prompt_log.json] holds: nothing (no file), text that is not
    JSON, a JSON array of entries, or JSON that is not an array. *)
Inductive json_file : Type :=
| JMissing
| JInvalid
| JArray (logs : list log_entry)
| JOther.

(** The files and the console.  [csv_append_error], [json_read_error] and
    [json_write_error] are what [open] raises for the respective access,
    if anything (a full disk, a file without permission). *)
Record world : Type :=
  { now : string;
    csv_rows : list (list cell);
    csv_append_error : option exn;
    json : json_file;
    json_read_error : option exn;
    json_write_error : option exn;
    stdout : list string }.

Definition print (line : string) (w : world) : world :=
  {| now := now w; csv_rows := csv_rows w;
     csv_append_error := csv_append_error w; json := json w;
     json_read_error := json_read_error w;
     json_write_error := json_write_error w;
     stdout := List.app (stdout w) [line] |}.

Definition with_csv_rows (rows : list (list cell)) (w : world) : world :=
  {| now := now w; csv_rows := rows;
     csv_append_error := csv_append_error w; json := json w;
     json_read_error := json_read_error w;
     json_write_error := json_write_error w; stdout := stdout w |}.

Definition with_json (j : json_file) (w : world) : world :=
  {| now := now w; csv_rows := csv_rows w;
     csv_append_error := csv_append_error w; json := j;
     json_read_error := json_read_error w;
     json_write_error := json_write_error w; stdout := stdout w |}.

Definition csv_row (e : log_entry) : list cell :=
  [ CStr (timestamp e); CStr (prompt e); CStr (risk_level e);
    CBool (should_block e); CStr (block_reason e); CStr (model_used e);
    CBool (was_redacted e); CStr (redacted_prompt e);
    CStr (Str.join "; " (pii_detected e));
    CStr (Str.join "; " (high_risk_keywords e));
    CStr (Str.join "; " (medium_risk_keywords e));
    CInt (total_pii_count e); CInt (high_risk_keywords_count e);
    CInt (medium_risk_keywords_count e); CInt (llm_response_length e);
    CInt (processing_time_ms e) ].

(** The body of the [try] of [_log_to_csv]. *)
Definition csv_append (w : world) (e : log_entry) : world * result unit :=
  let row := csv_row e in
  match csv_append_error w with
  | Some err => (w, Raised err)
  | None => (with_csv_rows (List.app (csv_rows w) [row]) w, Ok tt)
  end.

Definition _log_to_csv (w : world) (e : log_entry) : world * result unit :=
  match csv_append w e with
  | (w', Ok tt) => (w', Ok tt)
  | (w', Raised err) =>
      (print ("Error logging to CSV: " ++ exn_text err) w', Ok tt)
  end.

(** The body of the [try] of [_log_to_json]: read the logs there are,
    append, write all of them back. *)
Definition json_append (w : world) (e : log_entry) : world * result unit :=
  let read : result (option (list log_entry)) :=
    match json w with
    | JMissing => Ok (Some [])
    | other =>
        match json_read_error w with
        | Some err => Raised err
        | None =>
            match other with
            | JArray logs => Ok (Some logs)
            | JOther => Ok None
            | _ => Ok (Some [])
            end
        end
    end in
  match read with
  | Raised err => (w, Raised err)
  | Ok None =>
      (w, Raised (AttributeError "'dict' object has no attribute 'append'"))
  | Ok (Some logs) =>
      let logs := List.app logs [e] in
      match json_write_error w with
      | Some err => (w, Raised err)
      | None => (with_json (JArray logs) w, Ok tt)
      end
  end.

Definition _log_to_json (w : world) (e : log_entry) : world * result unit :=
  match json_append w e with
  | (w', Ok tt) => (w', Ok tt)
  | (w', Raised err) =>
      (print ("Error logging to JSON: " ++ exn_text err) w', Ok tt)
  end.

Definition log_prompt_analysis (w : world) (prompt : string)
  (detailed_analysis : PromptFilter.analysis) (should_block : bool)
  (block_reason model_used llm_response : string)
  (redaction_result : option PromptRedactor.redaction)
  (processing_time_ms : nat) : world * result log_entry :=
  let timestamp := now w in
  let log_entry :=
    {| timestamp := timestamp;
       prompt := prompt;
       risk_level :=
         PromptFilter.risk_name (PromptFilter.risk_level detailed_analysis);
       should_block := should_block;
       block_reason := block_reason;
       model_used := model_used;
       was_redacted :=
         match redaction_result with
         | Some r => PromptRedactor.was_redacted r
         | None => false
         end;
       redacted_prompt :=
         match redaction_result with
         | Some r => PromptRedactor.redacted_prompt r
         | None => ""
         end;
       pii_detected := Dict.keys (PromptFilter.pii_detected detailed_analysis);
       high_risk_keywords :=
         PromptFilter.kw_high (PromptFilter.keywords_found detailed_analysis);
       medium_risk_keywords :=
         PromptFilter.kw_medium (PromptFilter.keywords_found detailed_analysis);
       total_pii_count := PromptFilter.total_pii_count detailed_analysis;
       high_risk_keywords_count :=
         PromptFilter.high_risk_keywords_count detailed_analysis;
       medium_risk_keywords_count :=
         PromptFilter.medium_risk_keywords_count detailed_analysis;
       llm_response_length := String.length llm_response;
       processing_time_ms := processing_time_ms;
       detailed_analysis := detailed_analysis;
       redaction_details := redaction_result;
       llm_response := llm_response |} in
  match _log_to_csv w log_entry with
  | (w1, Raised err) => (w1, Raised err)
  | (w1, Ok tt) =>
      match _log_to_json w1 log_entry with
      | (w2, Raised err) => (w2, Raised err)
      | (w2, Ok tt) => (w2, Ok log_entry)
      end
  end.

End PromptLogger.

(* ------------------------------------------------------------------ *)
(** ** Shorthands used in the statements *)

(** [redact_prompt(prompt)['redacted_prompt']] *)
Definition redacted (prompt : string) : string :=
  PromptRedactor.redacted_prompt (PromptRedactor.redact_prompt prompt).

(** The detectors of a list that match a text, each with its matches, in
    the order of the list. *)
Definition found_in (text : string) (l : list (string * string))
  : list (string * list Re.found) :=
  filter (fun e => truthy (snd e))
         (List.map (fun e => (fst e, Re.findall true (snd e) text)) l).

(** The expression the parser builds for a text without special
    characters. *)
Fixpoint word_re (s : string) : Re.regex :=
  match s with
  | EmptyString => Re.Eps
  | String c EmptyString => Re.Lit c
  | String c t => Re.Cat (Re.Lit c) (word_re t)
  end.

Definition word_pattern (s : string) : Re.pattern :=
  {| Re.p_re := word_re s; Re.p_groups := 0 |}.

(** A word in lower case, as the keywords are. *)
Definition is_lower (s : string) : Prop := Str.lower s = s.

(** A keyword whose escaped text compiles to the pattern spelling it. *)
Definition keyword_ok (kw : string) : Prop :=
  Re.compile (Re.escape kw) = word_pattern kw /\ is_lower kw.

(** What [redact_keywords] returns, by cases. *)
Definition keywords_pass (text : string)
  : string * PromptRedactor.keyword_mapping :=
  if PromptRedactor.already_redacted text
  then (text, {| PromptRedactor.redacted_keywords := [] |})
  else
    match find (fun kw => Str.contains kw (Str.lower text))
               PromptRedactor.redact_keywords_list with
    | Some kw =>
        (Re.sub true (Re.escape kw) PromptRedactor.keyword_marker text,
         {| PromptRedactor.redacted_keywords := [kw] |})
    | None => (text, {| PromptRedactor.redacted_keywords := [] |})
    end.

(** A world whose disk is full: both files exist, neither can be written. *)
Definition full_disk : PromptLogger.world :=
  {| PromptLogger.now := "2025-01-01T00:00:00";
     PromptLogger.csv_rows := [];
     PromptLogger.csv_append_error :=
       Some (PromptLogger.OSError "[Errno 28] No space left on device");
     PromptLogger.json := PromptLogger.JArray [];
     PromptLogger.json_read_error := None;
     PromptLogger.json_write_error :=
       Some (PromptLogger.OSError "[Errno 28] No space left on device");
     PromptLogger.stdout := [] |}.

(** The lines a failed write leaves on the console. *)
Definition complaint (file : string) (r : PromptLogger.result unit)
  : list string :=
  match r with
  | PromptLogger.Ok _ => []
  | PromptLogger.Raised err =>
      ["Error logging to " ++ file ++ ": " ++ PromptLogger.exn_text err]
  end.

(* ------------------------------------------------------------------ *)
(** ** [redactor.py]: [get_redaction_summary] *)

Module Summary.

(** [str(n)] for a count *)
Definition str_of_nat (n : nat) : string :=
  NilEmpty.string_of_uint (Nat.to_uint n).

Definition get_redaction_summary (redaction_result : PromptRedactor.redaction)
  : string :=
  let summary_parts : list string := [] in
  let summary_parts :=
    if truthy (PromptRedactor.pii_redactions redaction_result) then
      List.app summary_parts
        (List.map
           (fun item =>
              let '(pii_type, matches) := item in
              str_of_nat (List.length matches) ++ " " ++ pii_type ++ "(s)")
           (PromptRedactor.pii_redactions redaction_result))
    else summary_parts in
  let keywords :=
    PromptRedactor.redacted_keywords
      (PromptRedactor.keyword_redactions redaction_result) in
  let summary_parts :=
    if truthy keywords then
      List.app summary_parts
        [str_of_nat (List.length keywords) ++ " sensitive keyword(s): "
           ++ Str.join ", " keywords]
    else summary_parts in
  if truthy summary_parts
  then "Redacted: " ++ Str.join "; " summary_parts
  else "No sensitive information detected".

End Summary.

(* ------------------------------------------------------------------ *)
(** ** [logger.py]: reading the log

    The value each reader returns.  A reader that fails also prints a line
    with the text of the exception; that line is not followed here. *)

Module LogQueries.

Import PromptLogger.

(** What the body of a reader's [try] gets: no file, an exception from
    [open] or [json.load], the list of entries, or JSON that is not an
    array. *)
Inductive loaded : Type :=
| NoFile
| LoadError
| Loaded (logs : list log_entry)
| Foreign.

Definition load (w : world) : loaded :=
  match json w with
  | JMissing => NoFile
  | content =>
      match json_read_error w with
      | Some _ => LoadError
      | None =>
          match content with
          | JArray logs => Loaded logs
          | JInvalid => LoadError
          | _ => Foreign
          end
      end
  end.

(** [l[start:]] *)
Definition slice_from {A : Type} (start : Z) (l : list A) : list A :=
  let len := Z.of_nat (List.length l) in
  if (start <? 0)%Z then skipn (Z.to_nat (Z.max (len + start) 0)) l
  else skipn (Z.to_nat start) l.

(** [get_recent_logs(limit)].  [None]: the file holds JSON that is not an
    array, where the call returns a slice of that value, the value itself
    or the empty list, depending on a value the [world] does not record. *)
Definition get_recent_logs (w : world) (limit : Z)
  : option (list log_entry) :=
  match load w with
  | Loaded logs =>
      Some (if (Z.of_nat (List.length logs) >? limit)%Z
            then slice_from (- limit) logs else logs)
  | Foreign => None
  | NoFile | LoadError => Some []
  end.

(** [get_logs_by_risk_level(risk_level)]; on JSON that is not an array the
    comprehension either has nothing to run over or raises, and the value
    is the empty list either way. *)
Definition get_logs_by_risk_level (w : world) (risk_level : string)
  : list log_entry :=
  match load w with
  | Loaded logs =>
      filter (fun log => String.eqb (PromptLogger.risk_level log) risk_level)
             logs
  | _ => []
  end.

(** [get_logs_by_model(model)] *)
Definition get_logs_by_model (w : world) (model : string) : list log_entry :=
  match load w with
  | Loaded logs =>
      filter (fun log => String.eqb (PromptLogger.model_used log) model) logs
  | _ => []
  end.

Record statistics : Type :=
  { total_prompts : nat;
    risk_levels : list (string * nat);
    models_used : list (string * nat);
    blocked_prompts : nat;
    redacted_prompts : nat }.

Definition no_statistics : statistics :=
  {| total_prompts := 0; risk_levels := []; models_used := [];
     blocked_prompts := 0; redacted_prompts := 0 |}.

(** [d.get(k, default)] *)
Fixpoint dict_get {V : Type} (d : list (string * V)) (k : string)
  (default : V) : V :=
  match d with
  | [] => default
  | (k', v) :: rest => if String.eqb k' k then v else dict_get rest k default
  end.

(** [d[k] = d.get(k, 0) + 1] *)
Definition count_up (d : list (string * nat)) (k : string)
  : list (string * nat) :=
  Dict.set d k (dict_get d k 0 + 1).

(** One round of the loop of [get_statistics]. *)
Definition tally (s : statistics) (log : log_entry) : statistics :=
  {| total_prompts := total_prompts s;
     risk_levels := count_up (risk_levels s) (PromptLogger.risk_level log);
     models_used := count_up (models_used s) (PromptLogger.model_used log);
     blocked_prompts :=
       if PromptLogger.should_block log then blocked_prompts s + 1
       else blocked_prompts s;
     redacted_prompts :=
       if PromptLogger.was_redacted log then redacted_prompts s + 1
       else redacted_prompts s |}.

(** [get_statistics()]; JSON that is not an array is either falsy, or has
    no length, or has members without [get], and the value is the empty
    statistics in each case. *)
Definition get_statistics (w : world) : statistics :=
  match load w with
  | Loaded logs =>
      if truthy logs then
        fold_left tally logs
          {| total_prompts := List.length logs; risk_levels := [];
             models_used := []; blocked_prompts := 0;
             redacted_prompts := 0 |}
      else no_statistics
  | _ => no_statistics
  end.

End LogQueries.

(* ------------------------------------------------------------------ *)
(** ** [main_app.py]: a submitted prompt, analysed and logged

    [processing_time_ms] is the time the page measures between the start
    of the analysis and the call of the logger. *)

Module Session.

Section Providers.
Variables call_groq call_gemini : string -> string.


End Providers.

End Session.

(* ------------------------------------------------------------------ *)
(** ** More shorthands *)

(** The pattern of a detector. *)
Definition pattern_of (name : string) : string :=
  LogQueries.dict_get PromptFilter.patterns name "".



(** The entries a log file holds, none for a file that is not an array. *)
Definition stored_logs (j : PromptLogger.json_file)
  : list PromptLogger.log_entry :=
  match j with PromptLogger.JArray logs => logs | _ => [] end.

(* ------------------------------------------------------------------ *)
(** ** [auth/admin.py]: class [AdminAuth]

    The configuration file is the state.  An instant is a number of
    microseconds; the texts [isoformat] writes and [fromisoformat] reads
    stand for it.  The entries of the file are taken to have the keys
    the class writes. *)

Module AdminAuth.

Record user : Type :=
  { password_hash : string;
    role : string;
    created_at : Z;
    last_login : option Z;
    login_attempts : Z;
    locked_until : option Z }.

Record system_config : Type :=
  { session_timeout_hours : Z;
    max_login_attempts : Z;
    lockout_duration_minutes : Z;
    enable_audit_log : bool }.

Record config : Type :=
  { admin_users : list (string * user);
    system : system_config }.

(** [admin_config.json]: absent, not to be loaded (with the text of the
    exception [_load_config] raises), or a configuration. *)
Inductive admin_file : Type :=
| Absent
| Unreadable (msg : string)
| Stored (c : config).

(** The file, and what [open(..., 'w')] raises if anything. *)
Record store : Type := { file : admin_file; save_error : option string }.

Inductive result (A : Type) : Type :=
| Ok (a : A)
| Raised (msg : string).
Arguments Ok {A} a.
Arguments Raised {A} msg.

(** [d.get(k)] for a dictionary of users, and [del d[k]] *)
Fixpoint lookup (d : list (string * user)) (k : string) : option user :=
  match d with
  | [] => None
  | (k', v) :: rest => if String.eqb k' k then Some v else lookup rest k
  end.


Definition _load_config (s : store) : result config :=
  match file s with
  | Stored c => Ok c
  | Unreadable msg => Raised msg
  | Absent =>
      Raised "[Errno 2] No such file or directory: 'admin_config.json'"
  end.

Definition _save_config (s : store) (c : config) : store * result unit :=
  match save_error s with
  | Some msg => (s, Raised msg)
  | None => ({| file := Stored c; save_error := save_error s |}, Ok tt)
  end.

Definition with_users (c : config) (users : list (string * user)) : config :=
  {| admin_users := users; system := system c |}.

(** The [user] of a successful login. *)
Record session_user : Type :=
  { su_username : string; su_role : string; su_last_login : option Z }.

Record auth_result : Type :=
  { success : bool; message : string; auth_user : option session_user }.

Definition refused (msg : string) : auth_result :=
  {| success := false; message := msg; auth_user := None |}.

Definition minute : Z := 60000000.

Section Library.
(** [hashlib.sha256(password.encode()).hexdigest()], and the text of
    [int(remaining.total_seconds() / 60)] for a lock that ends at the
    first instant, seen at the second. *)
Variable sha256_hex : string -> string.
Variable minutes_left : Z -> Z -> string.

Definition _hash_password (password : string) : string :=
  sha256_hex password.

(** [_init_admin_config], at the instant [now]. *)
Definition default_config (now : Z) : config :=
  {| admin_users :=
       [("admin",
         {| password_hash := _hash_password "admin123";
            role := "super_admin";
            created_at := now;
            last_login := None;
            login_attempts := 0;
            locked_until := None |})];
     system :=
       {| session_timeout_hours := 2;
          max_login_attempts := 3;
          lockout_duration_minutes := 15;
          enable_audit_log := true |} |}.

Definition _init_admin_config (s : store) (now : Z) : store * result unit :=
  match file s with
  | Absent => _save_config s (default_config now)
  | _ => (s, Ok tt)
  end.

(** The part of [authenticate] from the password check on; [now] is the
    next reading of the clock. *)
Definition verify (s : store) (c : config) (username password : string)
  (u : user) (now : Z) : store * result auth_result :=
  if String.eqb (password_hash u) (_hash_password password) then
    let u' :=
      {| password_hash := password_hash u; role := role u;
         created_at := created_at u; last_login := Some now;
         login_attempts := 0; locked_until := None |} in
    match _save_config s (with_users c (Dict.set (admin_users c) username u'))
    with
    | (s', Raised msg) => (s', Raised msg)
    | (s', Ok _) =>
        (s', Ok {| success := true; message := "Login successful";
                   auth_user :=
                     Some {| su_username := username; su_role := role u';
                             su_last_login := last_login u' |} |})
    end
  else
    let attempts := (login_attempts u + 1)%Z in
    let u' :=
      {| password_hash := password_hash u; role := role u;
         created_at := created_at u; last_login := last_login u;
         login_attempts := attempts;
         locked_until :=
           if (attempts >=? max_login_attempts (system c))%Z
           then Some (now + lockout_duration_minutes (system c) * minute)%Z
           else locked_until u |} in
    match _save_config s (with_users c (Dict.set (admin_users c) username u'))
    with
    | (s', Raised msg) => (s', Raised msg)
    | (s', Ok _) => (s', Ok (refused "Invalid username or password"))
    end.

(** The body of the [try] of [authenticate]; [t1] and [t2] are the first
    and the second reading of the clock during the call. *)
Definition authenticate_body (s : store) (t1 t2 : Z)
  (username password : string) : store * result auth_result :=
  match _load_config s with
  | Raised msg => (s, Raised msg)
  | Ok c =>
      match lookup (admin_users c) username with
      | None => (s, Ok (refused "Invalid username or password"))
      | Some u =>
          match locked_until u with
          | Some until =>
              if (t1 <? until)%Z then
                (s, Ok (refused ("Account locked. Try again in "
                                   ++ minutes_left until t2 ++ " minutes")))
              else
                verify s c username password
                  {| password_hash := password_hash u; role := role u;
                     created_at := created_at u; last_login := last_login u;
                     login_attempts := 0; locked_until := None |} t2
          | None => verify s c username password u t1
          end
      end
  end.

Definition authenticate (s : store) (t1 t2 : Z)
  (username password : string) : store * auth_result :=
  match authenticate_body s t1 t2 username password with
  | (s', Ok r) => (s', r)
  | (s', Raised msg) => (s', refused ("Authentication error: " ++ msg))
  end.

Record plain_result : Type := { ok : bool; text : string }.

Definition create_admin_user (s : store) (now : Z)
  (username password role : string) : store * plain_result :=
  match _load_config s with
  | Raised msg =>
      (s, {| ok := false; text := "Error creating admin user: " ++ msg |})
  | Ok c =>
      match lookup (admin_users c) username with
      | Some _ => (s, {| ok := false; text := "Username already exists" |})
      | None =>
          let u :=
            {| password_hash := _hash_password password; role := role;
               created_at := now; last_login := None;
               login_attempts := 0; locked_until := None |} in
          match
            _save_config s (with_users c (Dict.set (admin_users c) username u))
          with
          | (s', Raised msg) =>
              (s', {| ok := false;
                      text := "Error creating admin user: " ++ msg |})
          | (s', Ok _) =>
              (s', {| ok := true;
                      text := "Admin user '" ++ username
                                ++ "' created successfully" |})
          end
      end
  end.


Definition change_password (s : store)
  (username old_password new_password : string) : store * plain_result :=
  match _load_config s with
  | Raised msg =>
      (s, {| ok := false; text := "Error changing password: " ++ msg |})
  | Ok c =>
      match lookup (admin_users c) username with
      | None => (s, {| ok := false; text := "User not found" |})
      | Some u =>
          if negb (String.eqb (password_hash u) (_hash_password old_password))
          then (s, {| ok := false; text := "Current password is incorrect" |})
          else
            let u' :=
              {| password_hash := _hash_password new_password;
                 role := role u; created_at := created_at u;
                 last_login := last_login u;
                 login_attempts := login_attempts u;
                 locked_until := locked_until u |} in
            match
              _save_config s
                (with_users c (Dict.set (admin_users c) username u'))
            with
            | (s', Raised msg) =>
                (s', {| ok := false;
                        text := "Error changing password: " ++ msg |})
            | (s', Ok _) =>
                (s', {| ok := true; text := "Password changed successfully" |})
            end
      end
  end.

(** One row of [get_admin_users]: the entry without its password hash. *)
Record listed_user : Type :=
  { lu_username : string; lu_role : string; lu_created_at : Z;
    lu_last_login : option Z; lu_login_attempts : Z;
    lu_locked_until : option Z }.

Definition get_admin_users (s : store) : list listed_user :=
  match _load_config s with
  | Raised _ => []
  | Ok c =>
      List.map
        (fun item =>
           let '(username, user_data) := item in
           {| lu_username := username; lu_role := role user_data;
              lu_created_at := created_at user_data;
              lu_last_login := last_login user_data;
              lu_login_attempts := login_attempts user_data;
              lu_locked_until := locked_until user_data |})
        (admin_users c)
  end.

End Library.

(** The users a store holds, none when the file cannot be loaded. *)
Definition users_of (s : store) : list (string * user) :=
  match file s with Stored c => admin_users c | _ => [] end.

End AdminAuth.

(* ------------------------------------------------------------------ *)
(** ** Worlds and entries used as examples *)

Section Fixtures.

Import PromptLogger.

Definition one_entry (t p r m : string) (blocked red : bool) : log_entry :=
  {| timestamp := t; prompt := p; risk_level := r; should_block := blocked;
     block_reason := ""; model_used := m; was_redacted := red;
     redacted_prompt := ""; pii_detected := []; high_risk_keywords := [];
     medium_risk_keywords := []; total_pii_count := 0;
     high_risk_keywords_count := 0; medium_risk_keywords_count := 0;
     llm_response_length := 0; processing_time_ms := 0;
     detailed_analysis := PromptFilter.analyze_prompt p;
     redaction_details := None; llm_response := "" |}.

Definition three_logs : list log_entry :=
  [ one_entry "t1" "hello" "low" "groq" false false;
    one_entry "t2" "my password" "medium" "gemini" false true;
    one_entry "t3" "123-45-6789" "high" "groq" true false ].

Definition three_on_disk : world :=
  {| now := "t4"; csv_rows := []; csv_append_error := None;
     json := JArray three_logs; json_read_error := None;
     json_write_error := None; stdout := [] |}.

Definition empty_disk : world :=
  {| now := "t1"; csv_rows := []; csv_append_error := None;
     json := JMissing; json_read_error := None;
     json_write_error := None; stdout := [] |}.

End Fixtures.

Definition redaction_mark : string := "[REDACTED_".

Definition count_if {A : Type} (f : A -> bool) (l : list A) : nat :=
  List.length (filter f l).

Definition fresh_statistics (n : nat) : LogQueries.statistics :=
  {| LogQueries.total_prompts := n; LogQueries.risk_levels := [];
     LogQueries.models_used := []; LogQueries.blocked_prompts := 0;
     LogQueries.redacted_prompts := 0 |}.

(** The account is open at the first reading of the clock. *)
Definition open_at (u : AdminAuth.user) (t1 : Z) : Prop :=
  match AdminAuth.locked_until u with
  | Some until => (until <= t1)%Z
  | None => True
  end.

(** A configuration with two accounts, used as an example; in it a
    password is its own hash. *)
Definition plain_hash (password : string) : string := password.

Definition quarter_hour (until now : Z) : string := "15".

Definition alice : AdminAuth.user :=
  {| AdminAuth.password_hash := "wonderland"; AdminAuth.role := "admin";
     AdminAuth.created_at := 0; AdminAuth.last_login := None;
     AdminAuth.login_attempts := 2; AdminAuth.locked_until := None |}.

Definition carol : AdminAuth.user :=
  {| AdminAuth.password_hash := "looking-glass"; AdminAuth.role := "admin";
     AdminAuth.created_at := 0; AdminAuth.last_login := None;
     AdminAuth.login_attempts := 3; AdminAuth.locked_until := Some 1000%Z |}.

Definition two_accounts : AdminAuth.config :=
  {| AdminAuth.admin_users := [("alice", alice); ("carol", carol)];
     AdminAuth.system :=
       {| AdminAuth.session_timeout_hours := 2;
          AdminAuth.max_login_attempts := 3;
          AdminAuth.lockout_duration_minutes := 15;
          AdminAuth.enable_audit_log := true |} |}.

Definition two_accounts_stored : AdminAuth.store :=
  {| AdminAuth.file := AdminAuth.Stored two_accounts;
     AdminAuth.save_error := None |}.

(* ================================================================== *)
(** * Properties *)

(** ** Strings *)

Section StrFacts.

Lemma starts_app (n s b : string) :
  Str.starts n s = true -> Str.starts n (s ++ b) = true.
Proof.
  revert s; induction n as [|a n IH]; intros s H.
  - reflexivity.
  - destruct s as [|c s]; simpl in *; [discriminate|].
    apply andb_true_iff in H as [Hc Hs].
    rewrite Hc; simpl; auto.
Qed.

Lemma contains_app_l (n s b : string) :
  Str.contains n s = true -> Str.contains n (s ++ b) = true.
Proof.
  induction s as [|c s IH]; intros H.
  - simpl in H. rewrite orb_false_r in H.
    destruct n; [|discriminate]. destruct b; reflexivity.
  - cbn [Str.contains] in H. apply orb_true_iff in H as [H|H].
    + change (String c s ++ b) with (String c (s ++ b)).
      cbn [Str.contains].
      change (String c (s ++ b)) with (String c s ++ b).
      rewrite (starts_app _ _ _ H). reflexivity.
    + change (String c s ++ b) with (String c (s ++ b)).
      cbn [Str.contains]. rewrite (IH H). apply orb_true_r.
Qed.

Lemma contains_cons (n : string) (c : ascii) (s : string) :
  Str.contains n s = true -> Str.contains n (String c s) = true.
Proof. intros H. cbn [Str.contains]. rewrite H. apply orb_true_r. Qed.

Lemma truthy_filter {A : Type} (f : A -> bool) (l : list A) :
  truthy (filter f l) = existsb f l.
Proof.
  induction l as [|x l IH]; [reflexivity|].
  simpl. destruct (f x); [reflexivity | exact IH].
Qed.

End StrFacts.

(** ** The matcher *)

Section ReFacts.

Variable ic : bool.
Variable p : Re.pattern.

(** A text without a match is cut into its characters, so a substitution
    returns it as it is. *)
Lemma scan_no_match (repl : Re.rmatch -> string) (text : string) :
  forall prev,
    Re.matches (Re.scan ic p 0 prev text) = [] ->
    Re.rebuild repl (Re.scan ic p 0 prev text) = text.
Proof.
  induction text as [|c t IH]; intros prev H.
  - simpl in *. destruct (Re.match_at ic p prev ""); [discriminate|].
    reflexivity.
  - cbn [Re.scan] in *.
    destruct (Re.match_at ic p prev (String c t)); [discriminate|].
    cbn [Re.matches Re.rebuild] in *. f_equal. now apply IH.
Qed.

Lemma sub_with_no_match (repl : Re.rmatch -> string) (text : string) :
  Re.finditer ic p text = [] -> Re.sub_with ic p repl text = text.
Proof. apply scan_no_match. Qed.

(** With a match, the result holds whatever every replacement holds. *)
Lemma rebuild_contains (repl : Re.rmatch -> string) (mark : string)
  (ps : list Re.piece) :
  (forall m, Str.contains mark (repl m) = true) ->
  Re.matches ps <> [] ->
  Str.contains mark (Re.rebuild repl ps) = true.
Proof.
  intros Hm. induction ps as [|[c|m] ps IH]; intros H.
  - now elim H.
  - cbn [Re.rebuild]. apply contains_cons, IH, H.
  - cbn [Re.rebuild]. apply contains_app_l, Hm.
Qed.

End ReFacts.

Lemma findall_nil (ic : bool) (src text : string) :
  Re.findall ic src text = [] -> Re.finditer ic (Re.compile src) text = [].
Proof.
  unfold Re.findall. intros H. now apply map_eq_nil in H.
Qed.

(** *** The matcher on some texts *)

Example findall_ssn :
  Re.findall true "\b\d{3}-\d{2}-\d{4}\b"
    "My SSN is 123-45-6789 and 999-88-7777x 111-22-3333"
  = [Re.FStr "123-45-6789"; Re.FStr "111-22-3333"].
Proof. vm_compute. reflexivity. Qed.

Example findall_email :
  Re.findall true "\b[A-Za-z0-9._%+-]+@[A-Za-z0-9.-]+\.[A-Z|a-z]{2,}\b"
    "Email me at a@b.com or A.B@c-d.co.UK|x, a@b.c"
  = [Re.FStr "a@b.com"; Re.FStr "A.B@c-d.co.UK|x"].
Proof. vm_compute. reflexivity. Qed.

(** With one group in the pattern, [findall] lists the group. *)
Example findall_phone :
  Re.findall true
    "\b(\+\d{1,3}[-.\s]?)?\(?\d{3}\)?[-.\s]?\d{3}[-.\s]?\d{4}\b"
    "call 555-123-4567 or a+1 (555) 123.4567 12345678901"
  = [Re.FStr ""; Re.FStr "+1 "].
Proof. vm_compute. reflexivity. Qed.

Example findall_date_of_birth :
  Re.findall true
    "\b(0?[1-9]|1[0-2])[/-](0?[1-9]|[12]\d|3[01])[/-]\d{4}\b"
    "born 12/25/1990 or 1-2-2000 13/1/2000"
  = [Re.FTuple ["12"; "25"]; Re.FTuple ["1"; "2"]].
Proof. vm_compute. reflexivity. Qed.

Example sub_keyword :
  Re.sub true (Re.escape "pin") "[K]" "PIN spinning Pin" = "[K] s[K]ning [K]".
Proof. vm_compute. reflexivity. Qed.

Example secret_assignments :
  PromptRedactor.redact_secret_assignments
    "My password is hunter2, api_key=sk-123 token is"
  = "My [REDACTED_KEYWORD] is [REDACTED_SECRET] "
    ++ "[REDACTED_KEYWORD] = [REDACTED_SECRET] "
    ++ "[REDACTED_KEYWORD]  [REDACTED_SECRET]".
Proof. vm_compute. reflexivity. Qed.

(** *** Patterns that spell out a word *)

Lemma exec_word (w : string) :
  is_lower w ->
  forall (k : Re.mstate -> option Re.mstate) (st : Re.mstate),
    Str.starts w (Str.lower (Re.m_rest st)) = true ->
    exists st', Re.exec true (word_re w) k st = k st'.
Proof.
  induction w as [|c w IH]; intros Hl k st Hs.
  - exists st. reflexivity.
  - unfold is_lower in Hl. cbn in Hl. injection Hl as Hc Hw.
    destruct st as [pv rest caps]. cbn [Re.m_rest] in Hs.
    destruct rest as [|x rest]; [discriminate|].
    cbn in Hs. apply andb_true_iff in Hs as [Hx Hr].
    assert (Hone : Re.lit_match true c x = true).
    { unfold Re.lit_match. rewrite Hc. exact Hx. }
    destruct w as [|c' w'].
    + eexists. cbn [word_re Re.exec]. unfold Re.one_char. cbn [Re.m_rest].
      rewrite Hone. reflexivity.
    + change (word_re (String c (String c' w')))
        with (Re.Cat (Re.Lit c) (word_re (String c' w'))).
      cbn [Re.exec]. unfold Re.one_char at 1. cbn [Re.m_rest].
      rewrite Hone.
      destruct (IH Hw k (Re.advance x rest
                   {| Re.m_prev := pv; Re.m_rest := String x rest;
                      Re.m_caps := caps |}) Hr) as [st' E].
      exists st'. exact E.
Qed.

Lemma match_at_word (w : string) (prev : option ascii) (rest : string) :
  is_lower w ->
  Str.starts w (Str.lower rest) = true ->
  Re.match_at true (word_pattern w) prev rest <> None.
Proof.
  intros Hl Hs. unfold Re.match_at.
  destruct (exec_word w Hl (fun s => Some s)
              {| Re.m_prev := prev; Re.m_rest := rest; Re.m_caps := [] |} Hs)
    as [st' E].
  cbn [word_pattern Re.p_re]. rewrite E. discriminate.
Qed.

(** A word that occurs in the lower-cased text is found by its pattern
    under [re.IGNORECASE]. *)
Lemma scan_word (w : string) (text : string) :
  is_lower w ->
  forall prev,
    Str.contains w (Str.lower text) = true ->
    Re.matches (Re.scan true (word_pattern w) 0 prev text) <> [].
Proof.
  intros Hl. induction text as [|c t IH]; intros prev H.
  - cbn in H. rewrite orb_false_r in H.
    cbn [Re.scan].
    destruct (Re.match_at true (word_pattern w) prev "") eqn:E.
    + discriminate.
    + exfalso. now apply (match_at_word w prev "" Hl).
  - change (Str.lower (String c t))
      with (String (Chr.lower c) (Str.lower t)) in H.
    cbn [Str.contains] in H.
    cbn [Re.scan].
    destruct (Re.match_at true (word_pattern w) prev (String c t)) eqn:E.
    + discriminate.
    + cbn [Re.matches]. apply IH.
      apply orb_true_iff in H as [H|H]; [|exact H].
      exfalso. now apply (match_at_word w prev (String c t) Hl).
Qed.

(** ** Dictionaries *)

Section DictFacts.
Context {V : Type}.

Lemma has_app (d : list (string * V)) (k k' : string) (v : V) :
  Dict.has (d ++ [(k, v)])%list k' = Dict.has d k' || String.eqb k k'.
Proof.
  unfold Dict.has. rewrite existsb_app. simpl. now rewrite orb_false_r.
Qed.

Lemma set_fresh (d : list (string * V)) (k : string) (v : V) :
  Dict.has d k = false -> Dict.set d k v = (d ++ [(k, v)])%list.
Proof.
  induction d as [|[k' v'] d IH]; intros H; [reflexivity|].
  cbn in H. apply orb_false_iff in H as [Hk Hd].
  cbn. rewrite Hk. f_equal. now apply IH.
Qed.

End DictFacts.

(** ** The detectors *)

Lemma detect_fold (text : string) (l : list (string * string)) :
  NoDup (Dict.keys l) ->
  forall acc,
    (forall k, In k (Dict.keys l) -> Dict.has acc k = false) ->
    fold_left (PromptFilter.detect_step text) l acc
    = (acc ++ found_in text l)%list.
Proof.
  induction l as [|[n pat] l IH]; intros Hnd acc Hfresh.
  - cbn. now rewrite app_nil_r.
  - cbn in Hnd. inversion Hnd as [|? ? Hn Hl]; subst.
    cbn [fold_left PromptFilter.detect_step].
    unfold found_in. cbn [List.map filter fst snd].
    fold (found_in text l).
    destruct (truthy (Re.findall true pat text)) eqn:Ht.
    + rewrite set_fresh by (apply Hfresh; now left).
      rewrite IH; [now rewrite <- app_assoc | exact Hl |].
      intros k Hk. rewrite has_app, Hfresh by (now right).
      cbn. apply String.eqb_neq. intros ->. now apply Hn.
    + apply IH; [exact Hl|]. intros k Hk. apply Hfresh. now right.
Qed.

Lemma patterns_nodup : NoDup (Dict.keys PromptFilter.patterns).
Proof.
  repeat (constructor; [cbn; intuition discriminate|]). constructor.
Qed.

(** [detect_pii] lists the detectors that match, in their fixed order. *)
Lemma detect_pii_found (text : string) :
  PromptFilter.detect_pii text = found_in text PromptFilter.patterns.
Proof.
  unfold PromptFilter.detect_pii.
  now rewrite detect_fold by (auto using patterns_nodup).
Qed.

(** Every pattern of the program lies in the fragment [Re.parse] reads. *)
Lemma patterns_compile :
  forallb (fun e => match Re.parse (snd e) with
                    | Some _ => true
                    | None => false
                    end)
          PromptFilter.patterns = true
  /\ Re.p_groups PromptRedactor.assignment_pattern = 3.
Proof. split; vm_compute; reflexivity. Qed.

(** The mapping of [redact_pii] is built as [detect_pii] builds its
    dictionary. *)
Lemma pii_fold_mapping (text : string) (l : list (string * string)) :
  forall rt acc,
    snd (fold_left (PromptRedactor.pii_step text) l (rt, acc))
    = fold_left (PromptFilter.detect_step text) l acc.
Proof.
  induction l as [|[n pat] l IH]; intros rt acc; [reflexivity|].
  cbn [fold_left PromptRedactor.pii_step PromptFilter.detect_step].
  destruct (truthy (Re.findall true pat text)); apply IH.
Qed.

Lemma pii_fold_quiet (text : string) (l : list (string * string)) :
  found_in text l = [] ->
  forall acc, fold_left (PromptRedactor.pii_step text) l acc = acc.
Proof.
  induction l as [|[n pat] l IH]; intros H acc; [reflexivity|].
  unfold found_in in H. cbn [List.map filter fst snd] in H.
  fold (found_in text l) in H.
  destruct acc as [rt m].
  cbn [fold_left PromptRedactor.pii_step].
  destruct (truthy (Re.findall true pat text)); [discriminate|].
  now apply IH.
Qed.

(** ** The bare-keyword pass *)

Lemma keywords_ok : Forall keyword_ok PromptRedactor.redact_keywords_list.
Proof.
  repeat (constructor; [split; vm_compute; reflexivity|]). constructor.
Qed.

Lemma keyword_sub_marks (kw text : string) :
  keyword_ok kw ->
  Str.contains kw (Str.lower text) = true ->
  PromptRedactor.already_redacted
    (Re.sub_with true (Re.compile (Re.escape kw))
                 (fun _ => PromptRedactor.keyword_marker) text) = true.
Proof.
  intros [Hc Hl] H. unfold PromptRedactor.already_redacted.
  apply orb_true_iff. left. rewrite Hc. unfold Re.sub_with.
  apply rebuild_contains; [intros _; vm_compute; reflexivity|].
  now apply scan_word.
Qed.

Lemma keyword_fold_guarded (tl : string) (l : list string) :
  forall rt found,
    PromptRedactor.already_redacted rt = true ->
    fold_left (PromptRedactor.keyword_step tl) l (rt, found) = (rt, found).
Proof.
  induction l as [|kw l IH]; intros rt found H; [reflexivity|].
  cbn [fold_left PromptRedactor.keyword_step]. rewrite H. now apply IH.
Qed.

Lemma keyword_fold_first (text : string) (l : list string) :
  Forall keyword_ok l ->
  PromptRedactor.already_redacted text = false ->
  forall found,
    fold_left (PromptRedactor.keyword_step (Str.lower text)) l (text, found)
    = match find (fun kw => Str.contains kw (Str.lower text)) l with
      | Some kw =>
          (Re.sub true (Re.escape kw) PromptRedactor.keyword_marker text,
           (found ++ [kw])%list)
      | None => (text, found)
      end.
Proof.
  intros Hok Hg. induction Hok as [|kw l Hkw Hl IH]; intros found.
  - reflexivity.
  - cbn [fold_left find PromptRedactor.keyword_step]. rewrite Hg.
    destruct (Str.contains kw (Str.lower text)) eqn:Hc.
    + apply keyword_fold_guarded. now apply keyword_sub_marks.
    + apply IH.
Qed.

Lemma redact_keywords_cases (text : string) :
  PromptRedactor.redact_keywords text = keywords_pass text.
Proof.
  unfold PromptRedactor.redact_keywords, keywords_pass.
  destruct (PromptRedactor.already_redacted text) eqn:Hg.
  - now rewrite keyword_fold_guarded.
  - rewrite (keyword_fold_first text _ keywords_ok Hg).
    destruct (find _ _); reflexivity.
Qed.

(** A second run of the pass changes nothing. *)
Lemma redact_keywords_again (text : string) :
  fst (PromptRedactor.redact_keywords
         (fst (PromptRedactor.redact_keywords text)))
  = fst (PromptRedactor.redact_keywords text).
Proof.
  rewrite (redact_keywords_cases text). unfold keywords_pass.
  destruct (PromptRedactor.already_redacted text) eqn:Hg.
  - cbn [fst]. rewrite redact_keywords_cases. unfold keywords_pass.
    now rewrite Hg.
  - destruct (find _ _) as [kw|] eqn:Hf; cbn [fst].
    + apply find_some in Hf as [Hin Hc].
      rewrite redact_keywords_cases. unfold keywords_pass.
      assert (Hok : keyword_ok kw).
      { pose proof keywords_ok as Hall.
        rewrite Forall_forall in Hall. now apply Hall. }
      unfold Re.sub. rewrite (keyword_sub_marks kw text Hok Hc).
      reflexivity.
    + rewrite redact_keywords_cases. unfold keywords_pass.
      now rewrite Hg, Hf.
Qed.

(* ================================================================== *)
(** * The claims *)

(** ** Classification *)

(** C1.  For every prompt the risk level follows the three-case rule: high
    when the PII findings hold the detector [ssn] or [credit_card];
    otherwise medium when the findings are not empty or a high-risk or
    medium-risk keyword is a substring of the lower-cased prompt; otherwise
    low. *)
Theorem risk_level_three_cases (p : string) :
  let a := PromptFilter.analyze_prompt p in
  PromptFilter.pii_detected a = found_in p PromptFilter.patterns /\
  PromptFilter.risk_level a =
    if Dict.has (PromptFilter.pii_detected a) "ssn"
       || Dict.has (PromptFilter.pii_detected a) "credit_card"
    then PromptFilter.High
    else if truthy (PromptFilter.pii_detected a)
            || existsb (fun kw => Str.contains kw (Str.lower p))
                       PromptFilter.high_risk_keywords
            || existsb (fun kw => Str.contains kw (Str.lower p))
                       PromptFilter.medium_risk_keywords
    then PromptFilter.Medium
    else PromptFilter.Low.
Proof.
  cbv zeta. split.
  - unfold PromptFilter.analyze_prompt. cbn [PromptFilter.pii_detected].
    apply detect_pii_found.
  - unfold PromptFilter.analyze_prompt.
    cbn [PromptFilter.pii_detected PromptFilter.risk_level].
    unfold PromptFilter.check_keywords.
    cbn [PromptFilter.kw_high PromptFilter.kw_medium existsb].
    rewrite !truthy_filter, orb_false_r. reflexivity.
Qed.

Lemma analyze_should_block (p : string) :
  PromptFilter.should_block (PromptFilter.analyze_prompt p)
  = PromptFilter.is_high
      (PromptFilter.risk_level (PromptFilter.analyze_prompt p)).
Proof.
  unfold PromptFilter.analyze_prompt.
  cbn [PromptFilter.should_block PromptFilter.risk_level]. reflexivity.
Qed.

Lemma high_has_pii (p : string) :
  PromptFilter.risk_level (PromptFilter.analyze_prompt p) = PromptFilter.High ->
  truthy (PromptFilter.pii_detected (PromptFilter.analyze_prompt p)) = true.
Proof.
  unfold PromptFilter.analyze_prompt.
  cbn [PromptFilter.risk_level PromptFilter.pii_detected].
  destruct (PromptFilter.detect_pii p); [|reflexivity].
  cbn [existsb Dict.has orb truthy].
  destruct (truthy _ || truthy _); discriminate.
Qed.

Lemma should_block_fst (p : string) :
  fst (PromptFilter.should_block_prompt p)
  = PromptFilter.is_high
      (PromptFilter.risk_level (PromptFilter.analyze_prompt p)).
Proof.
  unfold PromptFilter.should_block_prompt. cbv zeta.
  rewrite analyze_should_block.
  destruct (PromptFilter.is_high _); reflexivity.
Qed.

(** C7.  The prompt is blocked exactly when its risk level is high.  When
    it is not blocked the reason is "No high-risk content detected"; when
    it is, the reason lists the detectors that fired and, if any, the
    high-risk keywords that fired, the two parts joined with "; ". *)
Theorem should_block_iff_high (p : string) :
  let a := PromptFilter.analyze_prompt p in
  let d := PromptFilter.should_block_prompt p in
  (fst d = true <-> PromptFilter.risk_level a = PromptFilter.High) /\
  snd d =
    if fst d then
      Str.join "; "
        (("Detected PII: "
            ++ Str.join ", " (Dict.keys (PromptFilter.pii_detected a)))
         :: (if truthy (PromptFilter.kw_high (PromptFilter.keywords_found a))
             then ["High-risk keywords: "
                     ++ Str.join ", "
                          (PromptFilter.kw_high
                             (PromptFilter.keywords_found a))]
             else []))
    else "No high-risk content detected".
Proof.
  cbv zeta. unfold PromptFilter.should_block_prompt. cbv zeta.
  rewrite analyze_should_block.
  pose proof (high_has_pii p) as Hp.
  destruct (PromptFilter.risk_level (PromptFilter.analyze_prompt p));
    cbn [PromptFilter.is_high fst snd].
  - split; [split; discriminate | reflexivity].
  - split; [split; discriminate | reflexivity].
  - rewrite (Hp eq_refl). clear Hp. cbn [app].
    split; [split; reflexivity|].
    destruct (truthy (PromptFilter.kw_high _)); reflexivity.
Qed.

(** C8.  "My password is hunter2" is of medium risk; its redacted text
    holds [[REDACTED_KEYWORD]] and [[REDACTED_SECRET]] and no longer holds
    "hunter2". *)
Theorem scenario_password_hunter2 :
  let p := "My password is hunter2" in
  let r := PromptRedactor.redacted_prompt (PromptRedactor.redact_prompt p) in
  PromptFilter.risk_level (PromptFilter.analyze_prompt p) = PromptFilter.Medium
  /\ r = "My [REDACTED_KEYWORD] is [REDACTED_SECRET]"
  /\ Str.contains "[REDACTED_KEYWORD]" r = true
  /\ Str.contains "[REDACTED_SECRET]" r = true
  /\ Str.contains "hunter2" r = false.
Proof. vm_compute. repeat split. Qed.

(** ** Redaction *)

Lemma redact_prompt_passes (p : string) :
  PromptRedactor.redacted_prompt (PromptRedactor.redact_prompt p)
  = fst (PromptRedactor.redact_keywords
           (PromptRedactor.redact_secret_assignments
              (fst (PromptRedactor.redact_pii p)))).
Proof.
  unfold PromptRedactor.redact_prompt.
  destruct (PromptRedactor.redact_pii p) as [rt m]. cbn [fst].
  destruct (PromptRedactor.redact_keywords _) as [ft km]. reflexivity.
Qed.

Lemma redact_prompt_mapping (p : string) :
  PromptRedactor.pii_redactions (PromptRedactor.redact_prompt p)
  = snd (PromptRedactor.redact_pii p).
Proof.
  unfold PromptRedactor.redact_prompt.
  destruct (PromptRedactor.redact_pii p) as [rt m]. cbn [snd].
  destruct (PromptRedactor.redact_keywords _) as [ft km]. reflexivity.
Qed.

(** C9.  Classifier and redactor hold the same detectors in the same
    order, and for every prompt the redactor's PII mapping is the
    classifier's PII findings, detector for detector. *)
Theorem same_detectors (p : string) :
  PromptRedactor.redaction_patterns = PromptFilter.patterns /\
  PromptRedactor.pii_redactions (PromptRedactor.redact_prompt p)
  = PromptFilter.pii_detected (PromptFilter.analyze_prompt p) /\
  Dict.keys (PromptRedactor.pii_redactions (PromptRedactor.redact_prompt p))
  = Dict.keys (PromptFilter.pii_detected (PromptFilter.analyze_prompt p)).
Proof.
  assert (H : PromptRedactor.pii_redactions (PromptRedactor.redact_prompt p)
              = PromptFilter.pii_detected (PromptFilter.analyze_prompt p)).
  { rewrite redact_prompt_mapping. unfold PromptRedactor.redact_pii.
    rewrite pii_fold_mapping. reflexivity. }
  split; [reflexivity|]. split; [exact H | now rewrite H].
Qed.

(** C10.  One call of the bare-keyword pass replaces and records at most
    one keyword: none when the text already holds [[REDACTED_KEYWORD]] or
    [[REDACTED_SECRET]], otherwise the first keyword of the list that
    occurs in the lower-cased text, after which the marker just written
    has every later keyword skipped. *)
Theorem redact_keywords_at_most_one (text : string) :
  PromptRedactor.redact_keywords text =
    (if PromptRedactor.already_redacted text
     then (text, {| PromptRedactor.redacted_keywords := [] |})
     else
       match find (fun kw => Str.contains kw (Str.lower text))
                  PromptRedactor.redact_keywords_list with
       | Some kw =>
           (Re.sub true (Re.escape kw) "[REDACTED_KEYWORD]" text,
            {| PromptRedactor.redacted_keywords := [kw] |})
       | None => (text, {| PromptRedactor.redacted_keywords := [] |})
       end)
  /\ List.length (PromptRedactor.redacted_keywords
                    (snd (PromptRedactor.redact_keywords text))) <= 1
  /\ PromptRedactor.already_redacted text
     = Str.contains "[REDACTED_KEYWORD]" text
       || Str.contains "[REDACTED_SECRET]" text.
Proof.
  split; [apply redact_keywords_cases|]. split; [|reflexivity].
  rewrite redact_keywords_cases. unfold keywords_pass.
  destruct (PromptRedactor.already_redacted text); [cbn; lia|].
  destruct (find _ _); cbn; lia.
Qed.

(** C3, as stated, fails: in "pin123-45-6789" no detector matches, because
    the digits follow a letter without a word boundary; the keyword pass
    rewrites [pin], and in its result the [ssn] detector does match, so a
    second redaction changes the text again.  In the same way the marker
    written for [token] in "tokenpin x" gives [pin] the word boundary that
    the secret-assignment pattern asks for. *)
Lemma redact_not_idempotent :
  redacted "pin123-45-6789" = "[REDACTED_KEYWORD]123-45-6789" /\
  redacted (redacted "pin123-45-6789") = "[REDACTED_KEYWORD][REDACTED_SSN]" /\
  redacted (redacted "pin123-45-6789") <> redacted "pin123-45-6789" /\
  redacted "tokenpin x" = "[REDACTED_KEYWORD]pin x" /\
  redacted (redacted "tokenpin x")
  = "[REDACTED_KEYWORD][REDACTED_KEYWORD]  [REDACTED_SECRET]".
Proof.
  split; [vm_compute; reflexivity|]. split; [vm_compute; reflexivity|].
  split; [vm_compute; discriminate|].
  split; vm_compute; reflexivity.
Qed.

Lemma redact_pii_quiet (q : string) :
  snd (PromptRedactor.redact_pii q) = [] ->
  PromptRedactor.redact_pii q = (q, []).
Proof.
  unfold PromptRedactor.redact_pii. intros H.
  rewrite pii_fold_mapping in H.
  change PromptRedactor.redaction_patterns with PromptFilter.patterns in *.
  rewrite detect_fold in H by (auto using patterns_nodup).
  now apply pii_fold_quiet.
Qed.

(** C3, amended.  Redacting a redacted text again returns it unchanged
    whenever no detector and no secret assignment matches in it. *)
Theorem redact_again_without_further_match (p : string) :
  snd (PromptRedactor.redact_pii (redacted p)) = [] ->
  Re.finditer true PromptRedactor.assignment_pattern (redacted p) = [] ->
  redacted (redacted p) = redacted p.
Proof.
  intros Hpii Hsec.
  unfold redacted at 1. rewrite redact_prompt_passes.
  rewrite (redact_pii_quiet _ Hpii). cbn [fst].
  unfold PromptRedactor.redact_secret_assignments.
  rewrite (sub_with_no_match _ _ _ _ Hsec).
  unfold redacted. rewrite redact_prompt_passes.
  apply redact_keywords_again.
Qed.

Lemma redact_again_without_further_match_witness :
  snd (PromptRedactor.redact_pii (redacted "My password is hunter2")) = [] /\
  Re.finditer true PromptRedactor.assignment_pattern
    (redacted "My password is hunter2") = [] /\
  redacted (redacted "My password is hunter2")
  = redacted "My password is hunter2".
Proof.
  assert (H1 : snd (PromptRedactor.redact_pii
                      (redacted "My password is hunter2")) = [])
    by (vm_compute; reflexivity).
  assert (H2 : Re.finditer true PromptRedactor.assignment_pattern
                 (redacted "My password is hunter2") = [])
    by (vm_compute; reflexivity).
  split; [exact H1|]. split; [exact H2|].
  exact (redact_again_without_further_match "My password is hunter2" H1 H2).
Defined.

(** C4 on "123-45-6789": the [ssn] detector is among the findings and
    [redact_pii] writes [[REDACTED_SSN]], but the keyword pass, whose guard
    knows only the keyword and secret markers, then rewrites the [SSN]
    inside that marker, and the redacted text holds no [[REDACTED_SSN]].
    Two more ways to lose a marker: in "My SSN is 123-45-6789" the
    secret-assignment pass takes the marker for the value assigned to
    [SSN]; in "555-123-4567 Main St" the [address] detector matches
    "4567 Main St" in the prompt, and nothing any more once the phone
    number is replaced. *)
Theorem ssn_marker_lost :
  Dict.has (PromptFilter.pii_detected
              (PromptFilter.analyze_prompt "123-45-6789")) "ssn" = true /\
  PromptRedactor.placeholder "ssn" = "[REDACTED_SSN]" /\
  fst (PromptRedactor.redact_pii "123-45-6789") = "[REDACTED_SSN]" /\
  redacted "123-45-6789" = "[REDACTED_[REDACTED_KEYWORD]]" /\
  Str.contains "[REDACTED_SSN]" (redacted "123-45-6789") = false /\
  Dict.has (PromptFilter.pii_detected
              (PromptFilter.analyze_prompt "My SSN is 123-45-6789")) "ssn"
  = true /\
  redacted "My SSN is 123-45-6789"
  = "My [REDACTED_KEYWORD] is [REDACTED_SECRET]" /\
  Dict.keys (PromptFilter.pii_detected
               (PromptFilter.analyze_prompt "555-123-4567 Main St"))
  = ["phone"; "address"] /\
  redacted "555-123-4567 Main St" = "[REDACTED_PHONE] Main St".
Proof. vm_compute. repeat split. Qed.

(** The part of the count invariant that holds for every prompt. *)
Lemma was_redacted_iff_total (p : string) :
  PromptRedactor.was_redacted (PromptRedactor.redact_prompt p) = false
  <-> PromptRedactor.total_redactions (PromptRedactor.redact_prompt p) = 0.
Proof.
  unfold PromptRedactor.redact_prompt.
  destruct (PromptRedactor.redact_pii p) as [rt m].
  destruct (PromptRedactor.redact_keywords _) as [ft km].
  cbn [PromptRedactor.was_redacted PromptRedactor.total_redactions].
  rewrite Nat.ltb_ge. lia.
Qed.

(** C5 on "My password is hunter2": the secret-assignment pass rewrites
    the text and is not counted, so the count is 0 and [was_redacted] is
    false although the redacted text differs from the prompt. *)
Theorem secret_assignment_not_counted :
  let r := PromptRedactor.redact_prompt "My password is hunter2" in
  PromptRedactor.total_redactions r = 0 /\
  PromptRedactor.was_redacted r = false /\
  PromptRedactor.redacted_prompt r
  = "My [REDACTED_KEYWORD] is [REDACTED_SECRET]" /\
  PromptRedactor.redacted_prompt r <> PromptRedactor.original_prompt r.
Proof.
  vm_compute. repeat split. discriminate.
Qed.

(** ** The decision policy *)

Section Policy.
Variables call_groq call_gemini : string -> string.

(** X8.  The analysis page forwards by risk level: nothing for a high-risk
    prompt, whose answer is the fixed message with the block reason; the
    redacted text for a medium-risk prompt; the prompt itself for a
    low-risk prompt. *)
Lemma page_forwards_by_risk (prompt llm_option : string) :
  let run := Page.analyze_submitted call_groq call_gemini prompt llm_option in
  match PromptFilter.risk_level (PromptFilter.analyze_prompt prompt) with
  | PromptFilter.High =>
      Llm.calls run = [] /\
      Page.llm_response (Llm.result run)
      = Page.blocked_message (snd (PromptFilter.should_block_prompt prompt))
  | PromptFilter.Medium =>
      List.map Llm.sent_text (Llm.calls run) = [redacted prompt]
  | PromptFilter.Low =>
      List.map Llm.sent_text (Llm.calls run) = [prompt]
  end.
Proof.
  cbv zeta. unfold Page.analyze_submitted. cbv zeta.
  unfold Classifier.should_block_prompt, Classifier.get_detailed_analysis.
  pose proof (should_block_fst prompt) as Hb.
  destruct (PromptFilter.should_block_prompt prompt) as [b reason].
  cbn [fst snd] in *. subst b.
  destruct (PromptFilter.risk_level (PromptFilter.analyze_prompt prompt));
    cbn [PromptFilter.is_high].
  - destruct (String.eqb _ "groq"); reflexivity.
  - destruct (String.eqb _ "groq"); reflexivity.
  - split; reflexivity.
Qed.

(** The [/prompt] endpoint forwards the prompt as it came in, whatever its
    risk level. *)
Lemma check_prompt_always_forwards (request : Api.PromptRequest) :
  String.eqb (Api.llm request) "groq" || String.eqb (Api.llm request) "gemini"
  = true ->
  List.map Llm.sent_text
    (Llm.calls (Api.check_prompt call_groq call_gemini request))
  = [Api.prompt request].
Proof.
  unfold Api.check_prompt. cbv zeta.
  destruct (String.eqb (Api.llm request) "groq"); [reflexivity|].
  destruct (String.eqb (Api.llm request) "gemini"); [reflexivity|].
  discriminate.
Qed.

(** C2 on the request [{prompt: "My SSN is 123-45-6789", llm: "groq"}] to
    the [/prompt] endpoint: the risk is high and the prompt is sent to the
    provider as it came in. *)
Theorem check_prompt_forwards_high_risk :
  let request :=
    {| Api.prompt := "My SSN is 123-45-6789"; Api.llm := "groq" |} in
  let run := Api.check_prompt call_groq call_gemini request in
  Classifier.classify_risk (Api.prompt request) = "high" /\
  Llm.calls run
  = [{| Llm.to := Llm.Groq; Llm.sent_text := "My SSN is 123-45-6789" |}] /\
  Llm.result run
  = Api.Response
      {| Api.risk := "high";
         Api.llm_response := call_groq "My SSN is 123-45-6789" |}.
Proof.
  cbv zeta.
  assert (H : Classifier.classify_risk "My SSN is 123-45-6789" = "high")
    by (vm_compute; reflexivity).
  unfold Api.check_prompt. cbn [Api.prompt Api.llm]. rewrite H.
  repeat split.
Qed.

End Policy.

(** ** The audit log *)

Section Audit.

Import PromptLogger.

Lemma log_to_csv_returns (w : world) (e : log_entry) :
  snd (_log_to_csv w e) = Ok tt.
Proof.
  unfold _log_to_csv, csv_append.
  destruct (csv_append_error w); reflexivity.
Qed.

Lemma log_to_json_returns (w : world) (e : log_entry) :
  snd (_log_to_json w e) = Ok tt.
Proof.
  unfold _log_to_json, json_append.
  destruct (json w), (json_read_error w), (json_write_error w); reflexivity.
Qed.

(** C6, as stated, fails: on a full disk neither file takes the entry, and
    the call returns the entry to its caller as after a successful write;
    the two failures only reach the console. *)
Lemma log_failure_not_reported :
  let a := PromptFilter.analyze_prompt "hello" in
  let run :=
    log_prompt_analysis full_disk "hello" a false
      "No high-risk content detected" "groq" "hi" None 5 in
  csv_rows (fst run) = [] /\
  json (fst run) = JArray [] /\
  (exists e, snd run = Ok e /\ prompt e = "hello") /\
  (forall err, snd run <> Raised err) /\
  stdout (fst run)
  = ["Error logging to CSV: [Errno 28] No space left on device";
     "Error logging to JSON: [Errno 28] No space left on device"].
Proof.
  cbv zeta. repeat split; try reflexivity.
  - eexists. split; reflexivity.
  - intros err. discriminate.
Qed.

(** C6, amended.  Appending a log entry never raises: a failure of the
    CSV write or of the JSON write is caught where it happens and printed
    as a line "Error logging to CSV: ..." or "Error logging to JSON: ...",
    and the call returns the entry to its caller. *)
Theorem log_failures_are_printed (w : world) (p : string)
  (a : PromptFilter.analysis) (block : bool)
  (reason model response : string)
  (red : option PromptRedactor.redaction) (ms : nat) :
  let run := log_prompt_analysis w p a block reason model response red ms in
  exists e,
    snd run = Ok e /\
    prompt e = p /\ timestamp e = now w /\
    stdout (fst run)
    = (stdout w ++ complaint "CSV" (snd (csv_append w e))
                ++ complaint "JSON" (snd (json_append w e)))%list.
Proof.
  cbv zeta. unfold log_prompt_analysis. cbv zeta.
  unfold _log_to_csv, _log_to_json, csv_append, json_append.
  destruct w as [t rows cerr j rerr werr out].
  cbn [csv_append_error json json_read_error json_write_error stdout now].
  destruct cerr, j, rerr, werr;
    cbn [with_csv_rows with_json print csv_append_error json
         json_read_error json_write_error stdout now csv_rows fst snd
         complaint];
    eexists;
    (split; [reflexivity|]); (split; [reflexivity|]);
    (split; [reflexivity|]);
    cbn [prompt timestamp fst snd stdout];
    rewrite <- ?app_assoc, ?app_nil_r; reflexivity.
Qed.

End Audit.

(* ================================================================== *)
(** * More properties of the code *)

(** ** Strings and detectors, continued *)

Lemma starts_contains (n s : string) :
  Str.starts n s = true -> Str.contains n s = true.
Proof. intros H. destruct s; cbn [Str.contains]; rewrite H; reflexivity. Qed.

Lemma contains_after (n a s : string) :
  Str.contains n s = true -> Str.contains n (a ++ s) = true.
Proof.
  intros H. induction a as [|c a IH]; [exact H|].
  change (String c a ++ s) with (String c (a ++ s)).
  now apply contains_cons.
Qed.

Lemma starts_prefix (a b s : string) :
  Str.starts (a ++ b) s = true -> Str.starts a s = true.
Proof.
  revert s. induction a as [|c a IH]; intros s H; [reflexivity|].
  change (String c a ++ b) with (String c (a ++ b)) in H.
  destruct s as [|x s]; cbn in *; [discriminate|].
  apply andb_true_iff in H as [Hc Hs]. rewrite Hc. cbn. now apply IH.
Qed.

Lemma contains_prefix (a b s : string) :
  Str.contains (a ++ b) s = true -> Str.contains a s = true.
Proof.
  induction s as [|x s IH]; intros H.
  - cbn [Str.contains] in *. rewrite orb_false_r in *.
    now apply starts_prefix in H.
  - cbn [Str.contains] in *. apply orb_true_iff in H as [H|H].
    + apply starts_prefix in H. now rewrite H.
    + rewrite (IH H). apply orb_true_r.
Qed.

Lemma found_in_truthy (text : string) (l : list (string * string)) :
  Forall (fun e => truthy (snd e) = true) (found_in text l).
Proof.
  apply Forall_forall. intros e H. unfold found_in in H.
  now apply filter_In in H.
Qed.

Lemma has_found_in_absent (text n : string) (l : list (string * string)) :
  ~ In n (Dict.keys l) -> Dict.has (found_in text l) n = false.
Proof.
  induction l as [|[k pat] l IH]; intros H; [reflexivity|].
  unfold found_in. cbn [List.map filter fst snd]. fold (found_in text l).
  cbn in H.
  assert (Hk : String.eqb k n = false)
    by (apply String.eqb_neq; intros ->; apply H; now left).
  destruct (truthy _).
  - cbn [Dict.has existsb fst]. rewrite Hk. cbn [orb]. apply IH. tauto.
  - apply IH. tauto.
Qed.

Lemma has_found_in (text n : string) (l : list (string * string)) :
  NoDup (Dict.keys l) -> In n (Dict.keys l) ->
  Dict.has (found_in text l) n
  = truthy (Re.findall true (LogQueries.dict_get l n "") text).
Proof.
  induction l as [|[k pat] l IH]; intros Hnd Hin; [now elim Hin|].
  cbn in Hnd. inversion Hnd as [|? ? Hk Hl]; subst.
  unfold found_in. cbn [List.map filter fst snd]. fold (found_in text l).
  cbn [LogQueries.dict_get].
  destruct (String.eqb k n) eqn:E.
  - apply String.eqb_eq in E. subst k.
    destruct (truthy (Re.findall true pat text)) eqn:Ht.
    + cbn [Dict.has existsb fst]. now rewrite String.eqb_refl.
    + now apply has_found_in_absent.
  - assert (Hin' : In n (Dict.keys l)).
    { cbn in Hin. destruct Hin as [Hkn|H]; [|exact H].
      subst k. now rewrite String.eqb_refl in E. }
    destruct (truthy (Re.findall true pat text)).
    + cbn [Dict.has existsb fst]. rewrite E. cbn [orb]. now apply IH.
    + now apply IH.
Qed.

Lemma has_detector (p n : string) :
  In n (Dict.keys PromptFilter.patterns) ->
  Dict.has (PromptFilter.detect_pii p) n
  = truthy (Re.findall true (pattern_of n) p).
Proof.
  intros H. rewrite detect_pii_found.
  now apply has_found_in; [apply patterns_nodup|].
Qed.

Lemma count_zero (d : list (string * list Re.found)) :
  Forall (fun e => truthy (snd e) = true) d ->
  list_sum (List.map (@List.length Re.found) (Dict.values d)) = 0 ->
  d = [].
Proof.
  destruct d as [|[k m] d]; [reflexivity|]. intros H Hs.
  inversion H as [|? ? Hm _]; subst. cbn in Hm.
  destruct m; [discriminate|]. cbn in Hs. discriminate.
Qed.

(** ** Classification, continued *)

(** X1.  The risk is high exactly when the [ssn] pattern or the
    [credit_card] pattern matches somewhere in the prompt. *)
Theorem high_risk_iff_ssn_or_card (p : string) :
  PromptFilter.risk_level (PromptFilter.analyze_prompt p) = PromptFilter.High
  <-> (Re.findall true (pattern_of "ssn") p <> []
       \/ Re.findall true (pattern_of "credit_card") p <> []).
Proof.
  assert (Hs : Dict.has (PromptFilter.detect_pii p) "ssn"
               = truthy (Re.findall true (pattern_of "ssn") p))
    by (apply has_detector; cbn; tauto).
  assert (Hc : Dict.has (PromptFilter.detect_pii p) "credit_card"
               = truthy (Re.findall true (pattern_of "credit_card") p))
    by (apply has_detector; cbn; tauto).
  unfold PromptFilter.analyze_prompt. cbn [PromptFilter.risk_level existsb].
  rewrite Hs, Hc, orb_false_r.
  destruct (Re.findall true (pattern_of "ssn") p) as [|x xs];
    destruct (Re.findall true (pattern_of "credit_card") p) as [|y ys];
    cbn [truthy orb].
  - split; [|intros [H|H]; now elim H].
    destruct (_ || _); discriminate.
  - split; [right; discriminate | reflexivity].
  - split; [left; discriminate | reflexivity].
  - split; [left; discriminate | reflexivity].
Qed.

(** X2.  The risk is low exactly when the three counts of the analysis
    are zero: no PII match, no high-risk keyword, no medium-risk
    keyword. *)
Theorem low_risk_iff_counts_zero (p : string) :
  let a := PromptFilter.analyze_prompt p in
  PromptFilter.risk_level a = PromptFilter.Low
  <-> (PromptFilter.total_pii_count a = 0
       /\ PromptFilter.high_risk_keywords_count a = 0
       /\ PromptFilter.medium_risk_keywords_count a = 0).
Proof.
  cbv zeta. unfold PromptFilter.analyze_prompt.
  cbn [PromptFilter.risk_level PromptFilter.total_pii_count
       PromptFilter.high_risk_keywords_count
       PromptFilter.medium_risk_keywords_count].
  pose proof (found_in_truthy p PromptFilter.patterns) as Hf.
  rewrite <- detect_pii_found in Hf.
  destruct (PromptFilter.detect_pii p) as [|e d] eqn:Hd.
  - cbn [existsb Dict.has orb truthy Dict.values List.map list_sum].
    destruct (PromptFilter.kw_high _) as [|h hs];
      destruct (PromptFilter.kw_medium _) as [|m ms];
      cbn [truthy orb List.length]; split; intros H;
      try discriminate; try (repeat split; reflexivity);
      destruct H as (_ & H1 & H2); discriminate.
  - split.
    + destruct (existsb _ _); [discriminate|].
      cbn [truthy orb]. discriminate.
    + intros (H & _). apply count_zero in H; [discriminate | exact Hf].
Qed.

(** ** Redaction, continued *)

Lemma redact_prompt_keywords (p : string) :
  PromptRedactor.keyword_redactions (PromptRedactor.redact_prompt p)
  = snd (PromptRedactor.redact_keywords
           (PromptRedactor.redact_secret_assignments
              (fst (PromptRedactor.redact_pii p)))).
Proof.
  unfold PromptRedactor.redact_prompt.
  destruct (PromptRedactor.redact_pii p) as [rt m]. cbn [fst].
  destruct (PromptRedactor.redact_keywords _) as [ft km]. reflexivity.
Qed.

Lemma redact_prompt_total (p : string) :
  PromptRedactor.total_redactions (PromptRedactor.redact_prompt p)
  = list_sum (List.map (@List.length Re.found)
                (Dict.values
                   (PromptRedactor.pii_redactions
                      (PromptRedactor.redact_prompt p))))
    + List.length
        (PromptRedactor.redacted_keywords
           (PromptRedactor.keyword_redactions
              (PromptRedactor.redact_prompt p))).
Proof.
  unfold PromptRedactor.redact_prompt.
  destruct (PromptRedactor.redact_pii p) as [rt m].
  destruct (PromptRedactor.redact_keywords _) as [ft km]. reflexivity.
Qed.

Lemma redact_prompt_was (p : string) :
  PromptRedactor.was_redacted (PromptRedactor.redact_prompt p)
  = Nat.ltb 0 (PromptRedactor.total_redactions
                 (PromptRedactor.redact_prompt p)).
Proof.
  unfold PromptRedactor.redact_prompt.
  destruct (PromptRedactor.redact_pii p) as [rt m].
  destruct (PromptRedactor.redact_keywords _) as [ft km]. reflexivity.
Qed.

Lemma redact_prompt_findings (p : string) :
  PromptRedactor.pii_redactions (PromptRedactor.redact_prompt p)
  = PromptFilter.detect_pii p.
Proof.
  rewrite redact_prompt_mapping. unfold PromptRedactor.redact_pii.
  now rewrite pii_fold_mapping.
Qed.

Lemma recorded_at_most_one (text : string) :
  List.length (PromptRedactor.redacted_keywords
                 (snd (PromptRedactor.redact_keywords text))) <= 1.
Proof.
  rewrite redact_keywords_cases. unfold keywords_pass.
  destruct (PromptRedactor.already_redacted text); [cbn; lia|].
  destruct (find _ _); cbn; lia.
Qed.

(** X3.  The redaction count is the classifier's PII count plus the
    keywords recorded, of which there is at most one. *)
Theorem total_redactions_bounds (p : string) :
  let r := PromptRedactor.redact_prompt p in
  let a := PromptFilter.analyze_prompt p in
  PromptRedactor.total_redactions r
  = PromptFilter.total_pii_count a
    + List.length (PromptRedactor.redacted_keywords
                     (PromptRedactor.keyword_redactions r))
  /\ PromptFilter.total_pii_count a <= PromptRedactor.total_redactions r
  /\ PromptRedactor.total_redactions r <= PromptFilter.total_pii_count a + 1.
Proof.
  cbv zeta.
  assert (Ha : PromptFilter.total_pii_count (PromptFilter.analyze_prompt p)
               = list_sum (List.map (@List.length Re.found)
                             (Dict.values (PromptFilter.detect_pii p))))
    by reflexivity.
  rewrite redact_prompt_total, redact_prompt_findings, Ha.
  pose proof (recorded_at_most_one
                (PromptRedactor.redact_secret_assignments
                   (fst (PromptRedactor.redact_pii p)))) as Hk.
  rewrite <- redact_prompt_keywords in Hk. lia.
Qed.

(** *** What a match of the secret-assignment pattern starts with *)













(** *** Markers in the redacted text *)

Lemma sub_with_marks (ic : bool) (pat : Re.pattern)
  (repl : Re.rmatch -> string) (mark text : string) :
  (forall m, Str.contains mark (repl m) = true) ->
  Re.finditer ic pat text <> [] ->
  Str.contains mark (Re.sub_with ic pat repl text) = true.
Proof. intros Hr H. now apply rebuild_contains. Qed.

Lemma sub_with_keeps (ic : bool) (pat : Re.pattern)
  (repl : Re.rmatch -> string) (mark text : string) :
  (forall m, Str.contains mark (repl m) = true) ->
  Str.contains mark text = true ->
  Str.contains mark (Re.sub_with ic pat repl text) = true.
Proof.
  intros Hr Ht. destruct (Re.finditer ic pat text) eqn:E.
  - now rewrite sub_with_no_match.
  - apply sub_with_marks; [exact Hr|]. rewrite E. discriminate.
Qed.

Lemma placeholder_marked (n : string) :
  Str.contains redaction_mark (PromptRedactor.placeholder n) = true.
Proof.
  apply starts_contains. unfold PromptRedactor.placeholder.
  now apply starts_app.
Qed.

Lemma replacer_marked (m : Re.rmatch) :
  Str.contains PromptRedactor.keyword_marker (PromptRedactor.replacer m)
  = true
  /\ Str.contains PromptRedactor.secret_marker (PromptRedactor.replacer m)
     = true.
Proof.
  unfold PromptRedactor.replacer. split.
  - apply starts_contains. now apply starts_app.
  - do 4 apply contains_after. now apply starts_contains.
Qed.

Lemma keyword_marker_marked (text : string) :
  Str.contains PromptRedactor.keyword_marker text = true ->
  Str.contains redaction_mark text = true.
Proof. apply (contains_prefix redaction_mark "KEYWORD]"). Qed.

Lemma secret_marker_marked (text : string) :
  Str.contains PromptRedactor.secret_marker text = true ->
  Str.contains redaction_mark text = true.
Proof. apply (contains_prefix redaction_mark "SECRET]"). Qed.

Lemma pii_fold_keeps (text : string) (l : list (string * string)) :
  forall rt acc,
    Str.contains redaction_mark rt = true ->
    Str.contains redaction_mark
      (fst (fold_left (PromptRedactor.pii_step text) l (rt, acc))) = true.
Proof.
  induction l as [|[n pat] l IH]; intros rt acc H; [exact H|].
  cbn [fold_left PromptRedactor.pii_step].
  destruct (truthy (Re.findall true pat text)); [|now apply IH].
  apply IH. unfold Re.sub.
  apply sub_with_keeps; [intros _; apply placeholder_marked | exact H].
Qed.

Lemma pii_fold_marks (text : string) (l : list (string * string)) :
  found_in text l <> [] ->
  forall acc,
    Str.contains redaction_mark
      (fst (fold_left (PromptRedactor.pii_step text) l (text, acc))) = true.
Proof.
  induction l as [|[n pat] l IH]; intros H acc; [now elim H|].
  unfold found_in in H. cbn [List.map filter fst snd] in H.
  fold (found_in text l) in H.
  cbn [fold_left PromptRedactor.pii_step].
  destruct (truthy (Re.findall true pat text)) eqn:Ht; [|now apply IH].
  apply pii_fold_keeps. unfold Re.sub.
  apply sub_with_marks; [intros _; apply placeholder_marked|].
  intros E. unfold Re.findall in Ht. rewrite E in Ht. discriminate.
Qed.

Lemma keywords_pass_keeps (text : string) :
  Str.contains redaction_mark text = true ->
  Str.contains redaction_mark (fst (PromptRedactor.redact_keywords text))
  = true.
Proof.
  intros H. rewrite redact_keywords_cases. unfold keywords_pass.
  destruct (PromptRedactor.already_redacted text); [exact H|].
  destruct (find _ _); [|exact H]. cbn [fst]. unfold Re.sub.
  apply sub_with_keeps; [intros _; reflexivity | exact H].
Qed.

Lemma keywords_pass_marks (text : string) :
  PromptRedactor.redacted_keywords (snd (PromptRedactor.redact_keywords text))
  <> [] ->
  Str.contains redaction_mark (fst (PromptRedactor.redact_keywords text))
  = true.
Proof.
  rewrite redact_keywords_cases. unfold keywords_pass.
  destruct (PromptRedactor.already_redacted text); [intros H; now elim H|].
  destruct (find _ _) as [kw|] eqn:Hf; [|intros H; now elim H].
  intros _. cbn [fst]. apply find_some in Hf as [Hin Hc].
  assert (Hok : keyword_ok kw).
  { pose proof keywords_ok as Hall. rewrite Forall_forall in Hall.
    now apply Hall. }
  pose proof (keyword_sub_marks kw text Hok Hc) as Hm.
  unfold PromptRedactor.already_redacted in Hm.
  apply orb_true_iff in Hm as [Hm|Hm];
    [now apply keyword_marker_marked | now apply secret_marker_marked].
Qed.

(** X5.  When [was_redacted] is set, the redacted text holds at least one
    marker [[REDACTED_...]]. *)
Theorem was_redacted_shows_marker (p : string) :
  PromptRedactor.was_redacted (PromptRedactor.redact_prompt p) = true ->
  Str.contains "[REDACTED_" (redacted p) = true.
Proof.
  rewrite redact_prompt_was, redact_prompt_total, redact_prompt_keywords.
  rewrite redact_prompt_findings, detect_pii_found.
  intros H. apply Nat.ltb_lt in H.
  unfold redacted. rewrite redact_prompt_passes.
  change "[REDACTED_" with redaction_mark.
  destruct (PromptRedactor.redacted_keywords
              (snd (PromptRedactor.redact_keywords
                      (PromptRedactor.redact_secret_assignments
                         (fst (PromptRedactor.redact_pii p)))))) eqn:Hk.
  - cbn [List.length] in H. rewrite Nat.add_0_r in H.
    apply keywords_pass_keeps.
    unfold PromptRedactor.redact_secret_assignments.
    apply sub_with_keeps.
    + intros m. destruct (replacer_marked m) as [Hm _].
      exact (keyword_marker_marked _ Hm).
    + unfold PromptRedactor.redact_pii.
      change PromptRedactor.redaction_patterns with PromptFilter.patterns.
      apply pii_fold_marks. intros E. rewrite E in H. cbn in H. lia.
  - apply keywords_pass_marks. rewrite Hk. discriminate.
Qed.

Lemma was_redacted_shows_marker_witness :
  PromptRedactor.was_redacted
    (PromptRedactor.redact_prompt "mail a@b.com") = true
  /\ Str.contains "[REDACTED_" (redacted "mail a@b.com") = true.
Proof.
  assert (H : PromptRedactor.was_redacted
                (PromptRedactor.redact_prompt "mail a@b.com") = true)
    by (vm_compute; reflexivity).
  split; [exact H | exact (was_redacted_shows_marker "mail a@b.com" H)].
Defined.

(** X6.  When the secret-assignment pass finds a match, the redacted text
    is its result, holds both [[REDACTED_KEYWORD]] and
    [[REDACTED_SECRET]], and the keyword pass records nothing. *)
Theorem secret_match_silences_keywords (p : string) :
  Re.finditer true PromptRedactor.assignment_pattern
    (fst (PromptRedactor.redact_pii p)) <> [] ->
  redacted p
  = PromptRedactor.redact_secret_assignments
      (fst (PromptRedactor.redact_pii p))
  /\ Str.contains "[REDACTED_KEYWORD]" (redacted p) = true
  /\ Str.contains "[REDACTED_SECRET]" (redacted p) = true
  /\ PromptRedactor.redacted_keywords
       (PromptRedactor.keyword_redactions (PromptRedactor.redact_prompt p))
     = [].
Proof.
  intros H.
  set (b := PromptRedactor.redact_secret_assignments
              (fst (PromptRedactor.redact_pii p))).
  assert (Hk : Str.contains PromptRedactor.keyword_marker b = true).
  { apply sub_with_marks; [|exact H].
    intros m. now destruct (replacer_marked m). }
  assert (Hs : Str.contains PromptRedactor.secret_marker b = true).
  { apply sub_with_marks; [|exact H].
    intros m. now destruct (replacer_marked m). }
  assert (Hg : PromptRedactor.redact_keywords b
               = (b, {| PromptRedactor.redacted_keywords := [] |})).
  { rewrite redact_keywords_cases. unfold keywords_pass.
    unfold PromptRedactor.already_redacted. now rewrite Hk. }
  unfold redacted. rewrite redact_prompt_passes, redact_prompt_keywords.
  fold b. rewrite Hg. cbn [fst snd PromptRedactor.redacted_keywords].
  repeat split; assumption.
Qed.

Lemma secret_match_silences_keywords_witness :
  Re.finditer true PromptRedactor.assignment_pattern
    (fst (PromptRedactor.redact_pii "api_key=sk-abc and my password")) <> []
  /\ redacted "api_key=sk-abc and my password"
     = "[REDACTED_KEYWORD] = [REDACTED_SECRET] and my password".
Proof.
  assert (H : Re.finditer true PromptRedactor.assignment_pattern
                (fst (PromptRedactor.redact_pii
                        "api_key=sk-abc and my password")) <> [])
    by (vm_compute; discriminate).
  split; [exact H|].
  destruct (secret_match_silences_keywords _ H) as (E & _).
  rewrite E. vm_compute. reflexivity.
Defined.

(** ** The summary *)

(** X7.  For the result of [redact_prompt], the summary reads "No
    sensitive information detected" exactly when [was_redacted] is
    false, and starts with "Redacted: " otherwise. *)
Theorem summary_follows_was_redacted (p : string) :
  let r := PromptRedactor.redact_prompt p in
  (Summary.get_redaction_summary r = "No sensitive information detected"
   <-> PromptRedactor.was_redacted r = false)
  /\ Str.starts "Redacted: " (Summary.get_redaction_summary r)
     = PromptRedactor.was_redacted r.
Proof.
  cbv zeta. rewrite redact_prompt_was, redact_prompt_total.
  unfold Summary.get_redaction_summary. cbv zeta.
  pose proof (found_in_truthy p PromptFilter.patterns) as Hf.
  rewrite <- detect_pii_found, <- redact_prompt_findings in Hf.
  destruct (PromptRedactor.pii_redactions (PromptRedactor.redact_prompt p))
    as [|[k m] d];
    destruct (PromptRedactor.redacted_keywords
                (PromptRedactor.keyword_redactions
                   (PromptRedactor.redact_prompt p))) as [|kw kws];
    cbn [truthy app List.map].
  - split; [split; reflexivity | reflexivity].
  - split; [split; intros H; discriminate | reflexivity].
  - inversion Hf as [|? ? Hm _]; subst. cbn in Hm.
    destruct m; [discriminate|].
    split; [split; intros H; discriminate | reflexivity].
  - inversion Hf as [|? ? Hm _]; subst. cbn in Hm.
    destruct m; [discriminate|].
    split; [split; intros H; discriminate | reflexivity].
Qed.

(** ** Reading the log *)

Section Reading.

Import PromptLogger.
Import LogQueries.

Lemma load_array (w : world) (logs : list log_entry) :
  json w = JArray logs -> json_read_error w = None -> load w = Loaded logs.
Proof. intros Hj Hr. unfold load. now rewrite Hj, Hr. Qed.

(** X9.  With a positive limit, [get_recent_logs] returns the last
    [limit] entries of the file, in the order they were written, and all
    of them when there are no more than [limit]. *)
Theorem get_recent_logs_last (w : world) (logs : list log_entry)
  (limit : Z) :
  json w = JArray logs -> json_read_error w = None -> (0 < limit)%Z ->
  get_recent_logs w limit
  = Some (skipn (List.length logs - Z.to_nat limit) logs)
  /\ (forall got, get_recent_logs w limit = Some got ->
        List.length got = Nat.min (Z.to_nat limit) (List.length logs)).
Proof.
  intros Hj Hr Hl.
  assert (E : get_recent_logs w limit
              = Some (skipn (List.length logs - Z.to_nat limit) logs)).
  { unfold get_recent_logs. rewrite (load_array w logs Hj Hr).
    destruct (Z.gtb_spec (Z.of_nat (List.length logs)) limit) as [Hgt|Hle].
    - unfold slice_from. destruct (Z.ltb_spec (- limit) 0) as [_|H]; [|lia].
      do 2 f_equal. lia.
    - replace (List.length logs - Z.to_nat limit) with 0 by lia.
      reflexivity. }
  split; [exact E|]. intros got Hg. rewrite E in Hg. injection Hg as <-.
  rewrite length_skipn. lia.
Qed.

Lemma get_recent_logs_last_witness :
  get_recent_logs three_on_disk 2
  = Some [ one_entry "t2" "my password" "medium" "gemini" false true;
           one_entry "t3" "123-45-6789" "high" "groq" true false ].
Proof.
  destruct (get_recent_logs_last three_on_disk three_logs 2) as [E _];
    [reflexivity | reflexivity | lia |].
  rewrite E. reflexivity.
Defined.

(** X10.  With a limit of zero [get_recent_logs] returns every entry, and
    with a negative limit it leaves out the oldest [-limit] entries. *)
Theorem get_recent_logs_without_limit (w : world) (logs : list log_entry)
  (limit : Z) :
  json w = JArray logs -> json_read_error w = None -> (limit <= 0)%Z ->
  get_recent_logs w limit = Some (skipn (Z.to_nat (- limit)) logs).
Proof.
  intros Hj Hr Hl. unfold get_recent_logs.
  rewrite (load_array w logs Hj Hr).
  destruct (Z.gtb_spec (Z.of_nat (List.length logs)) limit) as [Hgt|Hle].
  - unfold slice_from. destruct (Z.ltb_spec (- limit) 0) as [H|_]; [lia|].
    reflexivity.
  - assert (Hn : List.length logs = 0) by lia.
    destruct logs; [|discriminate]. now rewrite skipn_nil.
Qed.

Lemma get_recent_logs_without_limit_witness :
  get_recent_logs three_on_disk 0 = Some three_logs
  /\ get_recent_logs three_on_disk (-1)
     = Some [ one_entry "t2" "my password" "medium" "gemini" false true;
              one_entry "t3" "123-45-6789" "high" "groq" true false ].
Proof.
  split.
  - rewrite (get_recent_logs_without_limit three_on_disk three_logs 0);
      [reflexivity | reflexivity | reflexivity | lia].
  - rewrite (get_recent_logs_without_limit three_on_disk three_logs (-1));
      [reflexivity | reflexivity | reflexivity | lia].
Defined.

(** *** Counting *)

Lemma sum_set (d : list (string * nat)) (k : string) (x : nat) :
  list_sum (Dict.values (Dict.set d k x)) + dict_get d k 0
  = list_sum (Dict.values d) + x.
Proof.
  unfold Dict.values. induction d as [|[a v] d IH]; [cbn; lia|].
  cbn [Dict.set dict_get]. destruct (String.eqb a k).
  - cbn. lia.
  - cbn [List.map snd]. change (list_sum (?y :: ?l)) with (y + list_sum l).
    cbn [List.map snd list_sum fold_right] in *. lia.
Qed.

Lemma sum_count_up (d : list (string * nat)) (k : string) :
  list_sum (Dict.values (count_up d k)) = S (list_sum (Dict.values d)).
Proof.
  unfold count_up.
  pose proof (sum_set d k (dict_get d k 0 + 1)). lia.
Qed.

Lemma get_count_up (d : list (string * nat)) (k k' : string) :
  dict_get (count_up d k) k' 0
  = if String.eqb k k' then S (dict_get d k' 0) else dict_get d k' 0.
Proof.
  unfold count_up. induction d as [|[a v] d IH].
  - cbn. destruct (String.eqb k k'); reflexivity.
  - cbn [Dict.set dict_get]. destruct (String.eqb a k) eqn:Eak.
    + apply String.eqb_eq in Eak. subst a. cbn [dict_get].
      destruct (String.eqb k k'); [lia | reflexivity].
    + cbn [dict_get]. destruct (String.eqb a k') eqn:Eak'.
      * apply String.eqb_eq in Eak'. subst a.
        rewrite String.eqb_sym in Eak. now rewrite Eak.
      * exact IH.
Qed.

Lemma keys_count_up (d : list (string * nat)) (k : string) :
  NoDup (Dict.keys d) -> NoDup (Dict.keys (count_up d k)).
Proof.
  unfold count_up. generalize (dict_get d k 0 + 1) as x.
  induction d as [|[a v] d IH]; intros x Hnd.
  - cbn. constructor; [intros [] | constructor].
  - cbn in Hnd. inversion Hnd as [|? ? Ha Hd]; subst.
    cbn [Dict.set]. destruct (String.eqb a k) eqn:E.
    + apply String.eqb_eq in E. subst a. cbn. now constructor.
    + cbn. constructor; [|now apply IH].
      intros Hin. apply Ha. clear IH Hnd Hd Ha.
      induction d as [|[b u] d IHd]; cbn in *.
      * destruct Hin as [->|[]]. now rewrite String.eqb_refl in E.
      * destruct (String.eqb b k) eqn:Eb; cbn in Hin.
        -- destruct Hin as [->|Hin]; [|now right].
           now rewrite String.eqb_refl in E.
        -- destruct Hin as [->|Hin]; [now left | right; now apply IHd].
Qed.

Lemma tally_fold (logs : list log_entry) :
  forall s,
    let s' := fold_left tally logs s in
    total_prompts s' = total_prompts s
    /\ list_sum (Dict.values (risk_levels s'))
       = list_sum (Dict.values (risk_levels s)) + List.length logs
    /\ list_sum (Dict.values (models_used s'))
       = list_sum (Dict.values (models_used s)) + List.length logs
    /\ blocked_prompts s'
       = blocked_prompts s + count_if should_block logs
    /\ redacted_prompts s'
       = redacted_prompts s + count_if was_redacted logs
    /\ (forall r, dict_get (risk_levels s') r 0
                  = dict_get (risk_levels s) r 0
                    + count_if (fun log => String.eqb (risk_level log) r) logs)
    /\ (forall m, dict_get (models_used s') m 0
                  = dict_get (models_used s) m 0
                    + count_if (fun log => String.eqb (model_used log) m) logs)
    /\ (NoDup (Dict.keys (risk_levels s)) ->
        NoDup (Dict.keys (risk_levels s')))
    /\ (NoDup (Dict.keys (models_used s)) ->
        NoDup (Dict.keys (models_used s'))).
Proof.
  unfold count_if.
  induction logs as [|log logs IH]; intros s; cbv zeta.
  - cbn. repeat split; auto; intros; lia.
  - cbn [fold_left]. specialize (IH (tally s log)). cbv zeta in IH.
    destruct IH as (H1 & H2 & H3 & H4 & H5 & H6 & H7 & H8 & H9).
    rewrite H1, H2, H3, H4, H5.
    cbn [tally total_prompts risk_levels models_used blocked_prompts
         redacted_prompts] in *.
    rewrite !sum_count_up. cbn [filter List.length].
    repeat split.
    + lia.
    + lia.
    + destruct (should_block log); cbn [List.length]; lia.
    + destruct (was_redacted log); cbn [List.length]; lia.
    + intros r. rewrite H6, get_count_up.
      destruct (String.eqb (risk_level log) r); cbn [List.length]; lia.
    + intros m. rewrite H7, get_count_up.
      destruct (String.eqb (model_used log) m); cbn [List.length]; lia.
    + intros Hn. now apply H8, keys_count_up.
    + intros Hn. now apply H9, keys_count_up.
Qed.

Lemma statistics_loaded (w : world) (logs : list log_entry) :
  load w = Loaded logs ->
  get_statistics w = fold_left tally logs (fresh_statistics (List.length logs)).
Proof.
  intros H. unfold get_statistics. rewrite H.
  destruct logs; reflexivity.
Qed.

(** X11.  In the statistics of any log file the counts per risk level add
    up to the total, and so do the counts per model; no level and no
    model is listed twice; the blocked and the redacted prompts are at
    most the total. *)
Theorem statistics_add_up (w : world) :
  let s := get_statistics w in
  list_sum (Dict.values (risk_levels s)) = total_prompts s
  /\ list_sum (Dict.values (models_used s)) = total_prompts s
  /\ NoDup (Dict.keys (risk_levels s))
  /\ NoDup (Dict.keys (models_used s))
  /\ blocked_prompts s <= total_prompts s
  /\ redacted_prompts s <= total_prompts s.
Proof.
  cbv zeta. destruct (load w) as [| |logs|] eqn:Hl;
    try (unfold get_statistics; rewrite Hl; cbn;
         repeat split; try constructor; lia).
  rewrite (statistics_loaded w logs Hl).
  destruct (tally_fold logs (fresh_statistics (List.length logs)))
    as (H1 & H2 & H3 & H4 & H5 & _ & _ & H8 & H9).
  cbn [fresh_statistics total_prompts risk_levels models_used
       blocked_prompts redacted_prompts Dict.values Dict.keys List.map
       list_sum] in *.
  rewrite H1, H2, H3, H4, H5. unfold count_if.
  pose proof (filter_length_le should_block logs).
  pose proof (filter_length_le was_redacted logs).
  repeat split; try lia; [apply H8 | apply H9]; constructor.
Qed.

(** X12.  The statistics agree with the readers: the total is the number
    of entries in the file, the count of a risk level is the number of
    entries [get_logs_by_risk_level] returns for it, the count of a model
    the number [get_logs_by_model] returns, and the blocked and redacted
    counts are the numbers of entries so flagged. *)
Theorem statistics_match_queries (w : world) :
  let s := get_statistics w in
  (forall level, dict_get (risk_levels s) level 0
                 = List.length (get_logs_by_risk_level w level))
  /\ (forall model, dict_get (models_used s) model 0
                    = List.length (get_logs_by_model w model))
  /\ match load w with
     | Loaded logs =>
         total_prompts s = List.length logs
         /\ blocked_prompts s = List.length (filter should_block logs)
         /\ redacted_prompts s = List.length (filter was_redacted logs)
     | _ => s = no_statistics
     end.
Proof.
  cbv zeta. unfold get_logs_by_risk_level, get_logs_by_model.
  destruct (load w) as [| |logs|] eqn:Hl;
    try (unfold get_statistics; rewrite Hl; cbn; repeat split; reflexivity).
  rewrite (statistics_loaded w logs Hl).
  destruct (tally_fold logs (fresh_statistics (List.length logs)))
    as (H1 & _ & _ & H4 & H5 & H6 & H7 & _).
  cbn [fresh_statistics total_prompts risk_levels models_used
       blocked_prompts redacted_prompts dict_get] in *.
  unfold count_if in *. repeat split.
  - intros level. now rewrite H6.
  - intros model. now rewrite H7.
  - exact H1.
  - now rewrite H4.
  - now rewrite H5.
Qed.

(** *** Writing, then reading *)

Lemma logged_entry_fields (w : PromptLogger.world) (p : string)
  (a : PromptFilter.analysis) (block : bool)
  (reason model response : string)
  (red : option PromptRedactor.redaction) (ms : nat)
  (e : PromptLogger.log_entry) :
  snd (PromptLogger.log_prompt_analysis w p a block reason model response
         red ms) = PromptLogger.Ok e ->
  PromptLogger.prompt e = p
  /\ PromptLogger.risk_level e
     = PromptFilter.risk_name (PromptFilter.risk_level a)
  /\ PromptLogger.should_block e = block
  /\ PromptLogger.llm_response e = response
  /\ PromptLogger.redaction_details e = red.
Proof.
  unfold PromptLogger.log_prompt_analysis. cbv zeta.
  destruct (PromptLogger._log_to_csv _ _) as [w1 [[]|err]]; [|discriminate].
  destruct (PromptLogger._log_to_json _ _) as [w2 [[]|err]]; [|discriminate].
  cbn [snd]. intros H. injection H as <-. repeat split.
Qed.

Lemma json_after_log (w : world) (p : string)
  (a : PromptFilter.analysis) (block : bool)
  (reason model response : string)
  (red : option PromptRedactor.redaction) (ms : nat) :
  let run := log_prompt_analysis w p a block reason model response red ms in
  exists e,
    snd run = Ok e
    /\ (stored_logs (json (fst run)) = stored_logs (json w)
        \/ json (fst run) = JArray (stored_logs (json w) ++ [e])).
Proof.
  cbv zeta. unfold log_prompt_analysis. cbv zeta.
  unfold _log_to_csv, _log_to_json, csv_append, json_append.
  destruct w as [t rows cerr j rerr werr out].
  cbn [csv_append_error json json_read_error json_write_error stdout now
       csv_rows].
  destruct cerr, j, rerr, werr;
    cbn [with_csv_rows with_json print csv_append_error json
         json_read_error json_write_error stdout now csv_rows fst snd
         stored_logs app];
    eexists; (split; [reflexivity|]); auto.
Qed.


(** X14.  After a call of [log_prompt_analysis] on a file that can be read
    and written and does not hold foreign JSON, the new entry is the most
    recent one, is found under its risk level and its model, and the
    total of the statistics has grown by one. *)
Theorem logged_entry_is_read_back (w : world) (p : string)
  (a : PromptFilter.analysis) (block : bool)
  (reason model response : string)
  (red : option PromptRedactor.redaction) (ms : nat) :
  json w <> JOther -> json_read_error w = None ->
  json_write_error w = None ->
  let run := log_prompt_analysis w p a block reason model response red ms in
  exists e,
    snd run = Ok e
    /\ get_recent_logs (fst run) 1 = Some [e]
    /\ In e (get_logs_by_risk_level (fst run) (risk_level e))
    /\ In e (get_logs_by_model (fst run) model)
    /\ total_prompts (get_statistics (fst run))
       = S (List.length (stored_logs (json w))).
Proof.
  intros Hj Hr Hw. cbv zeta.
  destruct (json_after_log w p a block reason model response red ms)
    as (e & He & _).
  exists e. split; [exact He|].
  assert (Hmodel : model_used e = model).
  { unfold log_prompt_analysis in He. cbv zeta in He.
    destruct (_log_to_csv _ _) as [w1 [[]|err]]; [|discriminate].
    destruct (_log_to_json _ _) as [w2 [[]|err]]; [|discriminate].
    cbn in He. injection He as <-. reflexivity. }
  assert (Hload : load (fst (log_prompt_analysis w p a block reason model
                               response red ms))
                  = Loaded (stored_logs (json w) ++ [e])).
  { revert He. unfold log_prompt_analysis. cbv zeta.
    unfold _log_to_csv, _log_to_json, csv_append, json_append.
    destruct w as [t rows cerr j rerr werr out].
    cbn [csv_append_error json json_read_error json_write_error stdout now
         csv_rows] in *. subst rerr werr.
    destruct cerr, j; try (now elim Hj);
      cbn [with_csv_rows with_json print csv_append_error json
           json_read_error json_write_error stdout now csv_rows fst snd
           stored_logs app];
      intros He; injection He as <-; reflexivity. }
  assert (Hin : In e (stored_logs (json w) ++ [e]))
    by (apply in_or_app; right; now left).
  repeat split.
  - unfold get_recent_logs. rewrite Hload.
    rewrite length_app. cbn [List.length].
    destruct (stored_logs (json w)) as [|x l] eqn:Hs.
    + reflexivity.
    + destruct (Z.gtb_spec (Z.of_nat (List.length (x :: l) + 1)) 1)
        as [_|H]; [|cbn in H; lia].
      unfold slice_from. cbn [Z.opp Z.ltb Z.compare].
      rewrite length_app. cbn [List.length]. f_equal.
      replace (Z.to_nat (Z.max (Z.of_nat (S (List.length l) + 1) + -1) 0))
        with (List.length (x :: l)) by (cbn [List.length]; lia).
      rewrite skipn_app, skipn_all, Nat.sub_diag. reflexivity.
  - unfold get_logs_by_risk_level. rewrite Hload.
    apply filter_In. split; [exact Hin | apply String.eqb_refl].
  - unfold get_logs_by_model. rewrite Hload.
    apply filter_In. split; [exact Hin|].
    rewrite Hmodel. apply String.eqb_refl.
  - rewrite (statistics_loaded _ _ Hload).
    destruct (tally_fold (stored_logs (json w) ++ [e])
                (fresh_statistics
                   (List.length (stored_logs (json w) ++ [e]))))
      as (H & _).
    rewrite H. cbn [fresh_statistics total_prompts].
    rewrite length_app. cbn [List.length]. lia.
Qed.

Lemma logged_entry_is_read_back_witness :
  exists e,
    get_recent_logs
      (fst (log_prompt_analysis empty_disk "hello"
              (PromptFilter.analyze_prompt "hello") false
              "No high-risk content detected" "groq" "hi" None 5)) 1
    = Some [e]
    /\ prompt e = "hello".
Proof.
  destruct (logged_entry_is_read_back empty_disk "hello"
              (PromptFilter.analyze_prompt "hello") false
              "No high-risk content detected" "groq" "hi" None 5)
    as (e & He & Hrec & _);
    [discriminate | reflexivity | reflexivity |].
  exists e. split; [exact Hrec|].
  now destruct (logged_entry_fields _ _ _ _ _ _ _ _ _ _ He).
Defined.

End Reading.

(** ** A submitted prompt, analysed and logged *)

Section Sessions.
Variables call_groq call_gemini : string -> string.



End Sessions.


(** ** Administrator accounts *)

Section Accounts.

Import AdminAuth.

Variable sha256_hex : string -> string.
Variable minutes_left : Z -> Z -> string.

Abbreviation authenticate :=
  (AdminAuth.authenticate sha256_hex minutes_left).

Lemma lookup_set_same (d : list (string * user)) (k : string) (v : user) :
  lookup (Dict.set d k v) k = Some v.
Proof.
  induction d as [|[a x] d IH]; cbn; [now rewrite String.eqb_refl|].
  destruct (String.eqb a k) eqn:E; cbn.
  - now rewrite String.eqb_refl.
  - now rewrite E.
Qed.

Lemma lookup_set_other (d : list (string * user)) (k k' : string)
  (v : user) :
  k <> k' -> lookup (Dict.set d k v) k' = lookup d k'.
Proof.
  intros Hn. apply String.eqb_neq in Hn.
  induction d as [|[a x] d IH]; cbn; [now rewrite Hn|].
  destruct (String.eqb a k) eqn:E; cbn.
  - apply String.eqb_eq in E. subst a. now rewrite Hn.
  - destruct (String.eqb a k'); [reflexivity | exact IH].
Qed.


(** X16.  A login succeeds exactly when the configuration loads, the user
    exists, the account is not locked at that moment, the hash of the
    password is the stored one, and the configuration can be saved. *)
Theorem login_succeeds_iff (s : store) (t1 t2 : Z)
  (username password : string) :
  success (snd (authenticate s t1 t2 username password)) = true
  <-> exists c u,
        file s = Stored c
        /\ lookup (admin_users c) username = Some u
        /\ open_at u t1
        /\ password_hash u = sha256_hex password
        /\ save_error s = None.
Proof.
  unfold AdminAuth.authenticate, authenticate_body, _load_config, verify,
    _save_config, _hash_password, open_at.
  destruct s as [f se]. cbn [file save_error].
  split.
  - destruct f as [|msg|c]; cbn [snd success refused]; try discriminate.
    destruct (lookup (admin_users c) username) as [u|] eqn:Hu;
      cbn [snd success refused]; [|discriminate].
    intros H. exists c, u.
    destruct (locked_until u) as [until|] eqn:Hl.
    + destruct (Z.ltb_spec t1 until) as [Hlt|Hge];
        cbn [snd success refused] in H; [discriminate|].
      cbn [password_hash] in H.
      destruct (String.eqb_spec (password_hash u) (sha256_hex password))
        as [Hh|Hh]; destruct se; cbn in H; try discriminate.
      repeat split; auto.
    + destruct (String.eqb_spec (password_hash u) (sha256_hex password))
        as [Hh|Hh]; destruct se; cbn in H; try discriminate.
      repeat split; auto.
  - intros (c & u & Hf & Hu & Ho & Hh & Hs). subst f se.
    rewrite Hu. destruct (locked_until u) as [until|].
    + destruct (Z.ltb_spec t1 until) as [Hlt|Hge]; [lia|].
      cbn [password_hash]. rewrite Hh, String.eqb_refl. reflexivity.
    + rewrite Hh, String.eqb_refl. reflexivity.
Qed.

(** A locked account refuses every password until the lock ends, and the
    call writes nothing. *)
Lemma locked_refuses (s : store) (c : config) (u : user)
  (until t1 t2 : Z) (username password : string) :
  file s = Stored c ->
  lookup (admin_users c) username = Some u ->
  locked_until u = Some until -> (t1 < until)%Z ->
  authenticate s t1 t2 username password
  = (s, refused ("Account locked. Try again in "
                   ++ minutes_left until t2 ++ " minutes")).
Proof.
  intros Hf Hu Hl Ht.
  unfold AdminAuth.authenticate, authenticate_body, _load_config.
  rewrite Hf, Hu, Hl.
  destruct (Z.ltb_spec t1 until); [reflexivity | lia].
Qed.

(** X17.  Once a wrong password has brought the failed attempts of an
    account to the configured maximum, every login to it before the end
    of the lock is refused with "Account locked. ...", with the right
    password too, and writes nothing to the file. *)
Theorem lockout_holds (s : store) (c : config) (u : user)
  (t1 t2 t1' t2' : Z) (username wrong_password any_password : string) :
  file s = Stored c -> save_error s = None ->
  lookup (admin_users c) username = Some u ->
  locked_until u = None ->
  password_hash u <> sha256_hex wrong_password ->
  (login_attempts u + 1 >= max_login_attempts (system c))%Z ->
  (t1' < t1 + lockout_duration_minutes (system c) * minute)%Z ->
  let s' := fst (authenticate s t1 t2 username wrong_password) in
  authenticate s' t1' t2' username any_password
  = (s', refused ("Account locked. Try again in "
                    ++ minutes_left
                         (t1 + lockout_duration_minutes (system c) * minute)
                         t2'
                    ++ " minutes")).
Proof.
  intros Hf Hs Hu Hl Hh Hmax Ht. cbv zeta.
  assert (E : fst (authenticate s t1 t2 username wrong_password)
              = {| file :=
                     Stored
                       (with_users c
                          (Dict.set (admin_users c) username
                             {| password_hash := password_hash u;
                                role := AdminAuth.role u;
                                created_at := created_at u;
                                last_login := last_login u;
                                login_attempts := login_attempts u + 1;
                                locked_until :=
                                  Some (t1 + lockout_duration_minutes (system c)
                                               * minute)%Z |}));
                   save_error := None |}).
  { unfold AdminAuth.authenticate, authenticate_body, _load_config, verify,
      _save_config, _hash_password.
    rewrite Hf, Hu, Hl, Hs.
    destruct (String.eqb_spec (password_hash u) (sha256_hex wrong_password));
      [contradiction|].
    destruct (Z.geb_spec (login_attempts u + 1)
                (max_login_attempts (system c))); [reflexivity | lia]. }
  rewrite E.
  eapply locked_refuses;
    [reflexivity
    | cbn [with_users admin_users]; apply lookup_set_same
    | reflexivity
    | exact Ht].
Qed.

(** X18.  A wrong password on an account that is not locked adds one to
    its failed attempts and, once they reach the configured maximum, locks
    it for the configured number of minutes from that moment; the answer
    is the one given for an unknown user. *)
Theorem wrong_password_counts (s : store) (c : config) (u : user)
  (t1 t2 : Z) (username password : string) :
  file s = Stored c -> save_error s = None ->
  lookup (admin_users c) username = Some u ->
  locked_until u = None ->
  password_hash u <> sha256_hex password ->
  snd (authenticate s t1 t2 username password)
  = refused "Invalid username or password"
  /\ exists u',
       lookup (users_of (fst (authenticate s t1 t2 username password)))
              username = Some u'
       /\ login_attempts u' = (login_attempts u + 1)%Z
       /\ locked_until u'
          = (if (login_attempts u + 1 >=? max_login_attempts (system c))%Z
             then Some (t1 + lockout_duration_minutes (system c) * minute)%Z
             else None)
       /\ password_hash u' = password_hash u.
Proof.
  intros Hf Hs Hu Hl Hh.
  unfold AdminAuth.authenticate, authenticate_body, _load_config, verify,
    _save_config, _hash_password.
  rewrite Hf, Hu, Hl, Hs.
  destruct (String.eqb_spec (password_hash u) (sha256_hex password));
    [contradiction|].
  cbn [fst snd users_of file with_users admin_users].
  split; [reflexivity|]. eexists. rewrite lookup_set_same.
  split; [reflexivity|]. cbn [login_attempts locked_until password_hash].
  rewrite ?Hl. repeat split.
Qed.

(** X19.  After a successful login the stored account has no failed
    attempts and no lock, its last login is one of the two readings of
    the clock, its password hash is unchanged, and no other account has
    changed. *)
Theorem login_resets_account (s : store) (t1 t2 : Z)
  (username password : string) :
  success (snd (authenticate s t1 t2 username password)) = true ->
  let s' := fst (authenticate s t1 t2 username password) in
  (exists u',
     lookup (users_of s') username = Some u'
     /\ login_attempts u' = 0%Z /\ locked_until u' = None
     /\ (last_login u' = Some t1 \/ last_login u' = Some t2)
     /\ password_hash u' = sha256_hex password)
  /\ forall other, other <> username ->
       lookup (users_of s') other = lookup (users_of s) other.
Proof.
  cbv zeta.
  unfold AdminAuth.authenticate, authenticate_body, _load_config, verify,
    _save_config, _hash_password, users_of.
  destruct s as [f se]. cbn [file save_error].
  destruct f as [|msg|c]; cbn [snd success refused]; try discriminate.
  destruct (lookup (admin_users c) username) as [u|] eqn:Hu;
    cbn [snd success refused]; [|discriminate].
  destruct (locked_until u) as [until|] eqn:Hl.
  - destruct (Z.ltb_spec t1 until) as [Hlt|Hge];
      cbn [snd success refused]; [discriminate|].
    cbn [password_hash].
    destruct (String.eqb_spec (password_hash u) (sha256_hex password))
      as [Hh|Hh]; destruct se; cbn [snd success refused fst file with_users
                                    admin_users]; try discriminate.
    intros _. split.
    + eexists. rewrite lookup_set_same. split; [reflexivity|].
      cbn. repeat split; auto.
    + intros other Hn. now apply lookup_set_other.
  - destruct (String.eqb_spec (password_hash u) (sha256_hex password))
      as [Hh|Hh]; destruct se; cbn [snd success refused fst file with_users
                                    admin_users]; try discriminate.
    intros _. split.
    + eexists. rewrite lookup_set_same. split; [reflexivity|].
      cbn. repeat split; auto.
    + intros other Hn. now apply lookup_set_other.
Qed.

(** X20.  A user just created logs in with the password given at
    creation, and gets the role given at creation. *)
Theorem created_user_logs_in (s : store) (c : config)
  (now t1 t2 : Z) (username password new_role : string) :
  file s = Stored c -> save_error s = None ->
  lookup (admin_users c) username = None ->
  let made :=
    create_admin_user sha256_hex s now username password new_role in
  ok (snd made) = true
  /\ exists su,
       snd (authenticate (fst made) t1 t2 username password)
       = {| success := true; message := "Login successful";
            auth_user := Some su |}
       /\ su_username su = username /\ su_role su = new_role.
Proof.
  intros Hf Hs Hu. cbv zeta.
  unfold create_admin_user, _load_config, _save_config, _hash_password.
  rewrite Hf, Hu, Hs. cbn [fst snd ok]. split; [reflexivity|].
  unfold AdminAuth.authenticate, authenticate_body, _load_config, verify,
    _save_config, _hash_password.
  cbn [file save_error with_users admin_users].
  rewrite lookup_set_same. cbn [locked_until password_hash].
  rewrite String.eqb_refl. cbn [snd role last_login].
  eexists. split; [reflexivity|]. split; reflexivity.
Qed.


(** X22.  After a change of password on an account that is not locked,
    the new password logs in. *)
Theorem changed_password_logs_in (s : store) (c : config) (u : user)
  (t1 t2 : Z) (username old_password new_password : string) :
  file s = Stored c -> save_error s = None ->
  lookup (admin_users c) username = Some u ->
  password_hash u = sha256_hex old_password ->
  locked_until u = None ->
  let changed :=
    change_password sha256_hex s username old_password new_password in
  ok (snd changed) = true
  /\ success (snd (authenticate (fst changed) t1 t2 username new_password))
     = true.
Proof.
  intros Hf Hs Hu Hh Hl. cbv zeta.
  unfold change_password, _load_config, _save_config, _hash_password.
  rewrite Hf, Hu, Hs, Hh, String.eqb_refl. cbn [negb fst snd ok].
  split; [reflexivity|].
  unfold AdminAuth.authenticate, authenticate_body, _load_config, verify,
    _save_config, _hash_password.
  cbn [file save_error with_users admin_users].
  rewrite lookup_set_same. cbn [locked_until password_hash].
  rewrite Hl, String.eqb_refl. reflexivity.
Qed.

(** X23.  On a machine without a configuration file, the first start
    creates the user "admin" with the password "admin123" and the role
    "super_admin", and that password logs in at once. *)
Theorem default_admin_logs_in (now t1 t2 : Z) :
  let fresh := {| file := Absent; save_error := None |} in
  let s := fst (_init_admin_config sha256_hex fresh now) in
  snd (authenticate s t1 t2 "admin" "admin123")
  = {| success := true; message := "Login successful";
       auth_user :=
         Some {| su_username := "admin"; su_role := "super_admin";
                 su_last_login := Some t1 |} |}.
Proof.
  cbv zeta.
  unfold _init_admin_config, _save_config, default_config, _hash_password.
  cbn [file save_error fst].
  unfold AdminAuth.authenticate, authenticate_body, _load_config, verify,
    _save_config, _hash_password.
  cbn [file save_error admin_users lookup String.eqb Ascii.eqb Bool.eqb
       locked_until password_hash].
  rewrite String.eqb_refl. reflexivity.
Qed.

End Accounts.

(** *** The account theorems on the example configuration *)

Lemma lockout_holds_witness :
  AdminAuth.success
    (snd (AdminAuth.authenticate plain_hash quarter_hour
            (fst (AdminAuth.authenticate plain_hash quarter_hour
                    two_accounts_stored 50 60 "alice" "guess"))
            70 80 "alice" "wonderland")) = false.
Proof.
  rewrite (lockout_holds plain_hash quarter_hour two_accounts_stored
             two_accounts alice 50 60 70 80 "alice" "guess" "wonderland");
    [reflexivity | reflexivity | reflexivity | reflexivity | reflexivity
     | discriminate | cbn; lia | cbn; lia].
Defined.

Lemma wrong_password_counts_witness :
  exists u',
    AdminAuth.lookup
      (AdminAuth.users_of
         (fst (AdminAuth.authenticate plain_hash quarter_hour
                 two_accounts_stored 50 60 "alice" "guess"))) "alice"
    = Some u'
    /\ AdminAuth.login_attempts u' = 3%Z
    /\ AdminAuth.locked_until u' = Some (50 + 15 * AdminAuth.minute)%Z.
Proof.
  destruct (wrong_password_counts plain_hash quarter_hour two_accounts_stored
              two_accounts alice 50 60 "alice" "guess")
    as (_ & u' & Hu & Ha & Hl & _);
    [reflexivity | reflexivity | reflexivity | reflexivity | discriminate |].
  exists u'. split; [exact Hu|]. split; [exact Ha | exact Hl].
Defined.

Lemma login_resets_account_witness :
  exists u',
    AdminAuth.lookup
      (AdminAuth.users_of
         (fst (AdminAuth.authenticate plain_hash quarter_hour
                 two_accounts_stored 50 60 "alice" "wonderland"))) "alice"
    = Some u'
    /\ AdminAuth.login_attempts u' = 0%Z.
Proof.
  destruct (login_resets_account plain_hash quarter_hour two_accounts_stored
              50 60 "alice" "wonderland")
    as ((u' & Hu & Ha & _) & _); [reflexivity|].
  exists u'. split; [exact Hu | exact Ha].
Defined.

Lemma created_user_logs_in_witness :
  AdminAuth.ok
    (snd (AdminAuth.create_admin_user plain_hash two_accounts_stored 70
            "bob" "builder" "admin")) = true.
Proof.
  destruct (created_user_logs_in plain_hash quarter_hour two_accounts_stored
              two_accounts 70 80 90 "bob" "builder" "admin")
    as (H & _); [reflexivity | reflexivity | reflexivity |].
  exact H.
Defined.

Lemma changed_password_logs_in_witness :
  AdminAuth.success
    (snd (AdminAuth.authenticate plain_hash quarter_hour
            (fst (AdminAuth.change_password plain_hash two_accounts_stored
                    "alice" "wonderland" "rabbit-hole"))
            50 60 "alice" "rabbit-hole")) = true.
Proof.
  destruct (changed_password_logs_in plain_hash quarter_hour
              two_accounts_stored two_accounts alice 50 60 "alice"
              "wonderland" "rabbit-hole")
    as (_ & H); [reflexivity | reflexivity | reflexivity | reflexivity
                 | reflexivity |].
  exact H.
Defined.
